(** * dfsu_visualization_pipeline: the seven-day forecast pipeline and the
      polar plot conversion, embedded from [src/data_api/pipeline_api.py] and
      [src/data_api/dfs_visualization_api.py].

    Python values are modelled as follows.
    - [str] is [string]; a character is a code point below 256.
    - [int] is [Z]; [//] and [%] with a positive divisor are [Z.div] and
      [Z.modulo] (both floor).
    - a [dict] is an association list in insertion order with unique keys,
      since the code iterates over it.
    - a call that may raise returns a [result]; exception messages are not
      modelled, the exception class is.
    - [print] only writes to standard output and is left out. *)

From Stdlib Require Import ZArith List String Ascii Bool Lia Permutation Sorted.
Import ListNotations.
Open Scope string_scope.
Open Scope Z_scope.
Open Scope list_scope.

(** ** Exceptions and results *)

Inductive exn : Type :=
| ValueError
| KeyError (key : string)
| AttributeError
| OtherError (cls : string).

Inductive result (A : Type) : Type :=
| Ok (a : A)
| Raise (e : exn).
Arguments Ok {A} a.
Arguments Raise {A} e.

Definition bind {A B : Type} (r : result A) (k : A -> result B) : result B :=
  match r with
  | Ok a => k a
  | Raise e => Raise e
  end.

Notation "x <- r ;; k" := (bind r (fun x => k))
  (at level 61, r at next level, right associativity).

(** A list comprehension [[f(x) for x in l]]: [f] is called on the elements
    from left to right and the first exception ends the comprehension. *)
Fixpoint comprehension {A B : Type} (f : A -> result B) (l : list A)
  : result (list B) :=
  match l with
  | [] => Ok []
  | x :: t => y <- f x ;; ys <- comprehension f t ;; Ok (y :: ys)
  end.

(** ** The [datetime] module *)

Module Datetime.

Record datetime : Type := mkdatetime {
  year : Z; month : Z; day : Z;
  hour : Z; minute : Z; second : Z; microsecond : Z
}.

Record timedelta : Type := mktimedelta {
  days : Z; seconds : Z; microseconds : Z
}.

Definition _is_leap (y : Z) : bool :=
  (y mod 4 =? 0) && (negb (y mod 100 =? 0) || (y mod 400 =? 0)).

Definition _days_before_year (y0 : Z) : Z :=
  let y := y0 - 1 in y * 365 + y / 4 - y / 100 + y / 400.

Definition _days_in_month (y m : Z) : Z :=
  if (m =? 2) && _is_leap y then 29
  else nth (Z.to_nat m) [-1; 31; 28; 31; 30; 31; 30; 31; 31; 30; 31; 30; 31] 0.

Definition _days_before_month (y m : Z) : Z :=
  nth (Z.to_nat m) [-1; 0; 31; 59; 90; 120; 151; 181; 212; 243; 273; 304; 334] 0
  + (if (2 <? m) && _is_leap y then 1 else 0).

Definition _ymd2ord (y m d : Z) : Z :=
  _days_before_year y + _days_before_month y m + d.

Definition toordinal (t : datetime) : Z :=
  _ymd2ord (year t) (month t) (day t).

(** [timedelta(days, seconds, microseconds)] on integers: the constructor
    normalises to [0 <= microseconds < 10^6] and [0 <= seconds < 86400]. *)
Definition new_timedelta (d s us : Z) : timedelta :=
  let s' := s + us / 1000000 in
  mktimedelta (d + s' / 86400) (s' mod 86400) (us mod 1000000).

(** [datetime.__sub__] for two naive datetimes. *)
Definition sub (a b : datetime) : timedelta :=
  let secs1 := second a + minute a * 60 + hour a * 3600 in
  let secs2 := second b + minute b * 60 + hour b * 3600 in
  new_timedelta (toordinal a - toordinal b) (secs1 - secs2)
                (microsecond a - microsecond b).

(** [datetime] comparison: the field tuples are compared
    lexicographically. *)
Definition _cmp (a b : datetime) : comparison :=
  match year a ?= year b with
  | Eq =>
    match month a ?= month b with
    | Eq =>
      match day a ?= day b with
      | Eq =>
        match hour a ?= hour b with
        | Eq =>
          match minute a ?= minute b with
          | Eq =>
            match second a ?= second b with
            | Eq => microsecond a ?= microsecond b
            | c => c
            end
          | c => c
          end
        | c => c
        end
      | c => c
      end
    | c => c
    end
  | c => c
  end.

Definition ltb (a b : datetime) : bool :=
  match _cmp a b with Lt => true | _ => false end.

Definition leb (a b : datetime) : bool := negb (ltb b a).

(** Microseconds since the start of day 0 of the proleptic calendar, and the
    microseconds a [timedelta] stands for. *)
Definition timestamp_us (t : datetime) : Z :=
  (toordinal t * 86400 + (second t + minute t * 60 + hour t * 3600)) * 1000000
  + microsecond t.

Definition total_us (td : timedelta) : Z :=
  (days td * 86400 + seconds td) * 1000000 + microseconds td.

(** *** [strptime] with the format ["%Y%m%d%H"]

    [_strptime] turns the format into the regular expression
    [(?P<Y>\d\d\d\d)(?P<m>1[0-2]|0[1-9]|[1-9])(?P<d>3[0-1]|[1-2]\d|0[1-9]|[1-9]| [1-9])(?P<H>2[0-3]|[0-1]\d|\d)]
    and matches it at the start of the string. A group is modelled as the
    list of its matches in the order the backtracking matcher tries them;
    the match the matcher reports is the first of the whole sequence. *)

Definition digit (c : ascii) : option Z :=
  let n := Z.of_N (N_of_ascii c) in
  if (48 <=? n) && (n <=? 57) then Some (n - 48) else None.

Definition matcher : Type := string -> list (Z * string).

Definition between (lo hi x : Z) : bool := (lo <=? x) && (x <=? hi).

Definition two (lo1 hi1 lo2 hi2 : Z) : matcher := fun s =>
  match s with
  | String a (String b r) =>
    match digit a, digit b with
    | Some x, Some y =>
      if between lo1 hi1 x && between lo2 hi2 y then [(10 * x + y, r)] else []
    | _, _ => []
    end
  | _ => []
  end.

Definition one (lo hi : Z) : matcher := fun s =>
  match s with
  | String a r =>
    match digit a with
    | Some x => if between lo hi x then [(x, r)] else []
    | None => []
    end
  | _ => []
  end.

Definition space_one (lo hi : Z) : matcher := fun s =>
  match s with
  | String a r => if Ascii.eqb a " "%char then one lo hi r else []
  | _ => []
  end.

Definition alt (p q : matcher) : matcher := fun s => p s ++ q s.

Definition re_Y : matcher := fun s =>
  match s with
  | String a (String b (String c (String d r))) =>
    match digit a, digit b, digit c, digit d with
    | Some x, Some y, Some z, Some w =>
      [(1000 * x + 100 * y + 10 * z + w, r)]
    | _, _, _, _ => []
    end
  | _ => []
  end.

Definition re_m : matcher :=
  alt (two 1 1 0 2) (alt (two 0 0 1 9) (one 1 9)).

Definition re_d : matcher :=
  alt (two 3 3 0 1)
      (alt (two 1 2 0 9) (alt (two 0 0 1 9) (alt (one 1 9) (space_one 1 9)))).

Definition re_H : matcher :=
  alt (two 2 2 0 3) (alt (two 0 1 0 9) (one 0 9)).

Definition format_matches (s : string) : list (Z * Z * Z * Z * string) :=
  flat_map (fun '(y, s1) =>
    flat_map (fun '(m, s2) =>
      flat_map (fun '(d, s3) =>
        map (fun '(h, s4) => (y, m, d, h, s4)) (re_H s3))
        (re_d s2))
      (re_m s1))
    (re_Y s).

(** No match, text left after the match, year 0 and a day the month does not
    have are all [ValueError]. *)
Definition strptime (s : string) : result datetime :=
  match format_matches s with
  | [] => Raise ValueError
  | (y, m, d, h, rest) :: _ =>
    match rest with
    | EmptyString =>
      if (1 <=? y) && (d <=? _days_in_month y m)
      then Ok (mkdatetime y m d h 0 0 0)
      else Raise ValueError
    | String _ _ => Raise ValueError
    end
  end.

(** *** [strftime] with the format ["%Y%m%d%H"]

    The fields are zero-padded as the library documents them ([%Y] as
    0001 ... 9999); a C library that does not pad years below 1000 is not
    modelled. *)

Definition ascii_of_digit (d : Z) : ascii := ascii_of_N (Z.to_N (48 + d)).

Definition pad2 (n : Z) (rest : string) : string :=
  String (ascii_of_digit (n / 10)) (String (ascii_of_digit (n mod 10)) rest).

Definition pad4 (n : Z) (rest : string) : string :=
  String (ascii_of_digit (n / 1000))
    (String (ascii_of_digit (n / 100 mod 10)) (pad2 (n mod 100) rest)).

Definition strftime (t : datetime) : string :=
  pad4 (year t) (pad2 (month t) (pad2 (day t) (pad2 (hour t) ""))).

End Datetime.

Import Datetime.

(** ** Keys

    A key in the lexical form of the catalog: ten decimal digits. *)

Fixpoint all_digits (s : string) : bool :=
  match s with
  | EmptyString => true
  | String c t =>
    match digit c with
    | Some _ => all_digits t
    | None => false
    end
  end.

Definition SnapshotKey (s : string) : bool :=
  (String.length s =? 10)%nat && all_digits s.

(** ** [list.sort] on datetimes

    [list.sort] is a stable sort that compares with [<] only; the stable
    insertion sort below returns the same list. *)

Fixpoint insert (x : datetime) (l : list datetime) : list datetime :=
  match l with
  | [] => [x]
  | y :: t => if ltb x y then x :: y :: t else y :: insert x t
  end.

Definition sort (l : list datetime) : list datetime :=
  fold_left (fun acc x => insert x acc) l [].

(** ** Dictionaries *)

Definition dict (V : Type) : Type := list (string * V).

Definition keys {V : Type} (d : dict V) : list string := map fst d.

Fixpoint getitem {V : Type} (d : dict V) (k : string) : result V :=
  match d with
  | [] => Raise (KeyError k)
  | (k', v) :: t => if String.eqb k' k then Ok v else getitem t k
  end.

(** ** [pipeline_api.dfs0_pipeline] *)

Section Pipeline.

(** A row of a dataframe; a dataframe is the list of its rows. *)
Variable Row : Type.

Definition DataFrame : Type := list Row.

(** [pd.concat] of a list of dataframes raises [ValueError] on the empty
    list and otherwise stacks the frames in the order of the list. What
    pandas may raise for frames it cannot stack is not modelled. *)
Definition pd_concat (objs : list DataFrame) : result DataFrame :=
  match objs with
  | [] => Raise ValueError
  | _ :: _ => Ok (List.concat objs)
  end.

(** What the method reads from outside: the clock ([datetime.today()]), the
    file query api and the ingestion engine. *)
Record World : Type := mkWorld {
  today : datetime;
  get_seven_day_forcast_files : string -> string -> result (dict string);
  dfs0_ingestion_engine : string -> result DataFrame
}.

Record dfs0_pipeline : Type := mkpipeline {
  client_name : string;
  root_dir : string
}.

(** Lines 82-83. *)
Definition date_lst (forecast_dict : dict string) : result (list datetime) :=
  comprehension strptime (keys forecast_dict).

(** The condition of lines 90-91. *)
Definition in_window (date current_date : datetime) : bool :=
  (days (sub date current_date) <=? 7) && (0 <? days (sub date current_date)).

(** Lines 82-98: the list of key strings that is printed and then
    ingested. *)
Definition forecast_date_lst (forecast_dict : dict string)
    (current_date : datetime) : result (list string) :=
  dl <- date_lst forecast_dict ;;
  Ok (map strftime (sort (filter (fun date => in_window date current_date) dl))).

(** Lines 103-108. *)
Definition forecast_df_lst (w : World) (forecast_dict : dict string)
    (date_keys : list string) : result (list DataFrame) :=
  comprehension
    (fun date_key =>
       path <- getitem forecast_dict date_key ;; dfs0_ingestion_engine w path)
    date_keys.

(** Lines 111-119: [None] is returned when the handler ends. *)
Definition concat_or_none (dfs : list DataFrame) : result (option DataFrame) :=
  match pd_concat dfs with
  | Ok forecast_df => Ok (Some forecast_df)
  | Raise ValueError => Ok None
  | Raise e => Raise e
  end.

Definition build_seven_day_forecast_data (self : dfs0_pipeline) (w : World)
  : result (option DataFrame) :=
  forecast_dict <-
    get_seven_day_forcast_files w (root_dir self) (client_name self) ;;
  let current_date := today w in
  date_keys <- forecast_date_lst forecast_dict current_date ;;
  dfs <- forecast_df_lst w forecast_dict date_keys ;;
  concat_or_none dfs.

End Pipeline.

Arguments mkWorld {Row}.
Arguments today {Row}.
Arguments get_seven_day_forcast_files {Row}.
Arguments dfs0_ingestion_engine {Row}.
Arguments pd_concat {Row}.
Arguments forecast_df_lst {Row}.
Arguments concat_or_none {Row}.
Arguments build_seven_day_forecast_data {Row}.

(** ** [dfs_visualization_api.dashboard.create_polar_plot] *)

Module Dashboard.

Section Model.

(** A value in a dataframe, left opaque. A column is the list of its
    values; a dataframe is the list of its labelled columns, all of the
    length of the index. *)
Variable Cell : Type.

Definition Series : Type := list Cell.

Definition Frame : Type := list (string * Series).

(** The functions and the constants of the [math] module. *)
Definition math_functions : list string :=
  ["acos"; "acosh"; "asin"; "asinh"; "atan"; "atan2"; "atanh"; "ceil";
   "comb"; "copysign"; "cos"; "cosh"; "degrees"; "dist"; "erf"; "erfc";
   "exp"; "expm1"; "fabs"; "factorial"; "floor"; "fmod"; "frexp"; "fsum";
   "gamma"; "gcd"; "hypot"; "isclose"; "isfinite"; "isinf"; "isnan";
   "isqrt"; "ldexp"; "lgamma"; "log"; "log10"; "log1p"; "log2"; "modf";
   "perm"; "pow"; "prod"; "radians"; "remainder"; "sin"; "sinh"; "sqrt";
   "tan"; "tanh"; "trunc"].

Definition math_constants : list string := ["e"; "inf"; "nan"; "pi"; "tau"].

Inductive attr : Type :=
| Function (f : Series -> result Series)
| Constant.

(** What calling each function of [math] on a column gives. *)
Variable math_call : string -> Series -> result Series.

Definition mem (x : string) (l : list string) : bool :=
  existsb (String.eqb x) l.

Definition math_getattr (name : string) : result attr :=
  if mem name math_functions then Ok (Function (math_call name))
  else if mem name math_constants then Ok Constant
  else Raise AttributeError.

Definition call (a : attr) (x : Series) : result Series :=
  match a with
  | Function f => f x
  | Constant => Raise (OtherError "TypeError")
  end.

(** [lambda x : math.degree(x)] *)
Definition to_degree (x : Series) : result Series :=
  f <- math_getattr "degree" ;; call f x.

(** [DataFrame.apply(func)] for a [func] from columns to columns. On a
    frame with rows and columns [func] is called on each column in turn and
    an exception it raises comes out of [apply]. On a frame without rows or
    without columns pandas only probes [func] on an empty column, inside a
    [try] of its own, and returns a copy of the frame. *)
Definition no_cells (df : Frame) : bool :=
  match df with
  | [] => true
  | (_, []) :: _ => true
  | (_, _ :: _) :: _ => false
  end.

Definition apply (func : Series -> result Series) (df : Frame) : result Frame :=
  if no_cells df then
    match func [] with
    | Ok _ => Ok df
    | Raise _ => Ok df
    end
  else
    comprehension (fun '(label, col) => col' <- func col ;; Ok (label, col')) df.

(** Lines 387-391: the value of [theta] after the [try] statement. *)
Definition converted_theta (theta : Frame) : Frame :=
  match apply to_degree theta with
  | Ok theta' => theta'
  | Raise _ => theta
  end.

Record format : Type := mkformat {
  df_column : string; title : string; units : string
}.

(** The table that line 124 assigns to [self.timeseries_format], taken as
    the table the methods read; an object without that attribute is not
    modelled. *)
Definition timeseries_format : dict format :=
  [("Salinity", mkformat "Salinity" "Water Salinity" "PSU");
   ("Temperature", mkformat "Temperature" "Water Temperature" "Degrees Celsius");
   ("Density", mkformat "Density" "Water Density" "kg/m^3");
   ("Current direction", mkformat "Current direction" "Current Direction" "Radians");
   ("Current speed", mkformat "Current speed" "Current Speed" "m/s")].

(** The arguments of [go.Barpolar] that depend on the data. *)
Record Barpolar : Type := mkBarpolar {
  bar_r : Series;
  bar_theta : Series;
  marker_color : Series;
  colorbar_title : string
}.

(** [get_node_data] is inherited from the ingestion engine; [Coord] stands
    for the three floats that locate the node. *)
Variable Coord : Type.
Variable get_node_data : Coord -> string -> result Frame.

Definition create_polar_plot (node : Coord) (r_column theta_column : string)
  : result Barpolar :=
  r <- get_node_data node r_column ;;
  theta <- get_node_data node theta_column ;;
  let theta := converted_theta theta in
  r_format <- getitem timeseries_format r_column ;;
  r_values <- getitem r (df_column r_format) ;;
  theta_format <- getitem timeseries_format theta_column ;;
  theta_values <- getitem theta (df_column theta_format) ;;
  r_format' <- getitem timeseries_format r_column ;;
  color <- getitem r (df_column r_format') ;;
  r_format'' <- getitem timeseries_format r_column ;;
  Ok (mkBarpolar r_values theta_values color (units r_format'')).

(** The same method with the [try] statement taken out, so that [theta] is
    used as [get_node_data] returned it. *)
Definition create_polar_plot_unconverted (node : Coord)
    (r_column theta_column : string) : result Barpolar :=
  r <- get_node_data node r_column ;;
  theta <- get_node_data node theta_column ;;
  r_format <- getitem timeseries_format r_column ;;
  r_values <- getitem r (df_column r_format) ;;
  theta_format <- getitem timeseries_format theta_column ;;
  theta_values <- getitem theta (df_column theta_format) ;;
  r_format' <- getitem timeseries_format r_column ;;
  color <- getitem r (df_column r_format') ;;
  r_format'' <- getitem timeseries_format r_column ;;
  Ok (mkBarpolar r_values theta_values color (units r_format'')).

End Model.

End Dashboard.

(** ** [plot_water_column_table] and the constructors of
    [dfs_visualization_api]

    plotly is modelled by what the method hands to it: the table is the
    record of the header and the cell columns passed to [go.Table]. *)

Module Plots.

Import Dashboard.

Section Model.

Variable Cell : Type.

(** A Python float, left opaque: [lit] is the value of a float literal
    given by its source text. *)
Variable Float : Type.
Variable lit : string -> Float.

(** [extract_data] is inherited from the ingestion engine. *)
Variable extract_data : string -> Z -> result (Frame Cell).

(** *** [plot_water_column_table], lines 231-310

    [mean] is the mean of a column and [round2] is [.round(2)]. The table
    is the list of its rows; [DataFrame.append] with [ignore_index], in the
    pandas versions that have it, puts the new row last and [reindex] with
    the reversed index reverses the rows. What pandas itself may raise
    ([append] where it no longer exists, [mean] on a column that is not
    numeric) and a dashboard without its format table are not modelled:
    the model says what the table is when the method returns one, not when
    it returns. *)

Variable mean : Series Cell -> Float.
Variable round2 : Float -> Float.

Record table_row : Type := mkrow {
  Depth : Float;
  avg_current_speed : Float;
  avg_water_salinity : Float;
  avg_water_temperature : Float;
  avg_water_density : Float
}.

Definition column_data : list (Float * Z) :=
  [(lit "-12.39876", 59927); (lit "-10.16637", 2); (lit "-8.297584", 3);
   (lit "-6.722366", 35); (lit "-5.382481", 59683); (lit "-4.229135", 59684);
   (lit "-3.221019", 85); (lit "-2.322656", 59600); (lit "-1.50297", 8);
   (lit "-0.7340443", 38); (lit "0.01", 9)].

Definition column_mean (category : string) (index : Z) : result Float :=
  data <- extract_data category index ;;
  f <- getitem timeseries_format category ;;
  col <- getitem data (df_column f) ;;
  Ok (mean col).

(** One turn of the loop of lines 271-298. *)
Definition table_step (table_df : list table_row) (item : Float * Z)
  : result (list table_row) :=
  let '(depth, index) := item in
  current_speed_data <- column_mean "Current speed" index ;;
  salinity_data <- column_mean "Salinity" index ;;
  temperature_data <- column_mean "Temperature" index ;;
  density_data <- column_mean "Density" index ;;
  let df_map_dict :=
    mkrow depth (round2 current_speed_data) (round2 salinity_data)
      (round2 temperature_data) (round2 density_data) in
  Ok (rev (table_df ++ [df_map_dict])).

Fixpoint table_loop (items : list (Float * Z)) (table_df : list table_row)
  : result (list table_row) :=
  match items with
  | [] => Ok table_df
  | item :: rest =>
    table_df' <- table_step table_df item ;; table_loop rest table_df'
  end.

Record Table : Type := mkTable {
  header : list string;
  cells : list (list Float)
}.

Definition table_of (table_df : list table_row) : Table :=
  mkTable
    ["Depth"; "Avg Current Speed (m/s)"; "Avg Water Salinity (PSU)";
     "Avg Water Temperature (Degrees Celsius)"; "Avg Water Density (kg/m^3)"]
    [map Depth table_df; map avg_current_speed table_df;
     map avg_water_salinity table_df; map avg_water_temperature table_df;
     map avg_water_density table_df].

Definition plot_water_column_table (long lat : Float) : result Table :=
  table_df <- table_loop column_data [] ;;
  Ok (table_of table_df).

(** *** [gis_model] and the constructor of [dashboard]

    A call is modelled by the list of its positional arguments after
    [self]; a call that does not bind every parameter of [__init__] raises
    [TypeError]. [Value] is any Python value. *)

Variable Value : Type.

Definition TypeError : exn := OtherError "TypeError".

Record gis_model : Type := mkgis_model {
  center_loc : Value;
  client_model : Value;
  access_token : Value;
  data_points : list Value
}.

Definition build_coord_lst : list Value := [].

Definition gis_model_init (args : list Value) : result gis_model :=
  match args with
  | [center; client; token] =>
    Ok (mkgis_model center client token build_coord_lst)
  | _ => Raise TypeError
  end.

(** The state the ingestion engine sets up in [super().__init__]. *)
Variable Engine : Type.
Variable dfsu_ingestion_engine_init : Value -> result Engine.

Record dashboard : Type := mkdashboard {
  filepath : Value;
  engine : Engine;
  dashboard_gis_model : gis_model;
  dashboard_timeseries_format : dict format
}.

Definition dashboard_init (path gis_filepath : Value) : result dashboard :=
  e <- dfsu_ingestion_engine_init path ;;
  g <- gis_model_init [gis_filepath] ;;
  Ok (mkdashboard path e g timeseries_format).

End Model.

End Plots.

(** A catalog with one key in the short form that [strptime] accepts. *)
Definition short_key_catalog : dict string := [("2024326", "short.dfs0")].

(** ** Scenarios for the water column table

    An engine whose frame for a category has the one column named like the
    category, for a dashboard whose cells are integers. *)

Definition demo_extract_data (category : string) (index : Z)
  : result (Dashboard.Frame Z) :=
  Ok [(category, [index])].

Definition demo_mean (col : Dashboard.Series Z) : Z := hd 0 col.

Definition demo_round2 (x : Z) : Z := x.

Definition demo_lit (text : string) : string := text.

Definition demo_text_mean (col : Dashboard.Series Z) : string := "0.0".

Definition demo_text_round2 (x : string) : string := x.

(** ** Vocabulary of the statements *)

(** The order of the field tuples, which is the order [_cmp] decides. *)
Definition lex_lt (a b : datetime) : Prop :=
  year a < year b \/ (year a = year b /\
  (month a < month b \/ (month a = month b /\
  (day a < day b \/ (day a = day b /\
  (hour a < hour b \/ (hour a = hour b /\
  (minute a < minute b \/ (minute a = minute b /\
  (second a < second b \/ (second a = second b /\
   microsecond a < microsecond b))))))))))).

(** [a <= b] on datetimes. *)
Definition le (a b : datetime) : Prop := leb a b = true.

(** The microseconds of a day. *)
Definition day_us : Z := 86400000000.


(** The datetimes [strptime] can return. *)
Record parsed (t : datetime) : Prop := mkparsed {
  parsed_year : 1 <= year t <= 9999;
  parsed_month : 1 <= month t <= 12;
  parsed_day : 1 <= day t <= _days_in_month (year t) (month t);
  parsed_hour : 0 <= hour t <= 23;
  parsed_minute : minute t = 0;
  parsed_second : second t = 0;
  parsed_microsecond : microsecond t = 0
}.

(** ** Scenarios

    The catalogs and instants of the concrete scenarios. A row is a string
    here, and the ingestion engine of a scenario returns a frame of one row
    that names the path it was given. *)

Definition march_1 : datetime := mkdatetime 2024 3 1 0 0 0 0.
Definition march_2 : datetime := mkdatetime 2024 3 2 0 0 0 0.

(** A clock reading later on the first of March, with microseconds. *)
Definition march_1_0530 : datetime := mkdatetime 2024 3 1 5 30 0 250000.

Definition boundary_catalog : dict string := [("2024030800", "E.dfs0")].

Definition scenario_catalog : dict string :=
  [("2024030106", "A.dfs0"); ("2024030206", "B.dfs0");
   ("2024030900", "C.dfs0"); ("2024022900", "D.dfs0")].

Definition shuffled_catalog : dict string :=
  [("2024030506", "F.dfs0"); ("2024030206", "B.dfs0");
   ("2024022900", "D.dfs0"); ("2024030306", "G.dfs0")].

Definition ordered_catalog : dict string :=
  [("2024022900", "D.dfs0"); ("2024030206", "B.dfs0");
   ("2024030306", "G.dfs0"); ("2024030506", "F.dfs0")].

Definition past_catalog : dict string := [("2024022900", "D.dfs0")].

Definition same_day_catalog : dict string := [("2024030106", "A.dfs0")].

Definition malformed_catalog : dict string :=
  [("2024030206", "B.dfs0"); ("notadate", "X.dfs0")].

Definition catalog_B : dict string := [("2024030206", "data.dfs0")].
Definition catalog_G : dict string := [("2024030306", "data.dfs0")].

Definition ingest_ok (path : string) : result (DataFrame string) := Ok [path].

Definition ingest_fail (path : string) : result (DataFrame string) :=
  Raise (OtherError "OSError").

Definition ingest_fail_on (bad path : string) : result (DataFrame string) :=
  if String.eqb path bad then Raise (OtherError "OSError") else Ok [path].

Definition world (now : datetime) (catalog : dict string)
    (ingest : string -> result (DataFrame string)) : World string :=
  mkWorld now (fun _ _ => Ok catalog) ingest.

Definition pipeline : dfs0_pipeline := mkpipeline "TT_HD_BPTT_Cypre" "root".

(** * Properties *)

Example strptime_ex : strptime "2024030106" = Ok (mkdatetime 2024 3 1 6 0 0 0).
Proof. reflexivity. Qed.
Example strptime_short : strptime "2024326" = Ok (mkdatetime 2024 3 2 6 0 0 0).
Proof. reflexivity. Qed.
Example strptime_bad : strptime "notadate" = Raise ValueError.
Proof. reflexivity. Qed.
Example strptime_long : strptime "20240301061" = Raise ValueError.
Proof. reflexivity. Qed.
Example strptime_feb30 : strptime "2023023000" = Raise ValueError.
Proof. reflexivity. Qed.
Example strftime_ex : strftime (mkdatetime 2024 3 1 6 0 0 0) = "2024030106".
Proof. reflexivity. Qed.
Example toordinal_ex : toordinal (mkdatetime 2024 3 1 0 0 0 0) = 738946.
Proof. reflexivity. Qed.

(** ** The order on datetimes *)

Lemma _cmp_spec (a b : datetime) :
  CompareSpec (a = b) (lex_lt a b) (lex_lt b a) (_cmp a b).
Proof.
  destruct a as [y1 m1 d1 h1 n1 s1 u1], b as [y2 m2 d2 h2 n2 s2 u2].
  unfold _cmp, lex_lt; simpl.
  destruct (Z.compare_spec y1 y2); [subst | constructor; lia ..].
  destruct (Z.compare_spec m1 m2); [subst | constructor; lia ..].
  destruct (Z.compare_spec d1 d2); [subst | constructor; lia ..].
  destruct (Z.compare_spec h1 h2); [subst | constructor; lia ..].
  destruct (Z.compare_spec n1 n2); [subst | constructor; lia ..].
  destruct (Z.compare_spec s1 s2); [subst | constructor; lia ..].
  destruct (Z.compare_spec u1 u2); [subst | constructor; lia ..].
  constructor; reflexivity.
Qed.

Lemma ltb_lex (a b : datetime) : ltb a b = true <-> lex_lt a b.
Proof.
  unfold ltb. destruct (_cmp_spec a b) as [E | L | G]; split; intro H;
    try discriminate; try reflexivity; try assumption.
  - subst. unfold lex_lt in H. lia.
  - unfold lex_lt in *. lia.
Qed.

Lemma le_lex (a b : datetime) : le a b <-> ~ lex_lt b a.
Proof.
  unfold le, leb. rewrite negb_true_iff, <- ltb_lex.
  destruct (ltb b a); split; intro H; congruence.
Qed.

Lemma le_refl (a : datetime) : le a a.
Proof. apply le_lex. unfold lex_lt. lia. Qed.





(** ** The sort returns the sorted rearrangement of its input *)

Lemma insert_perm (x : datetime) (l : list datetime) :
  Permutation (insert x l) (x :: l).
Proof.
  induction l as [| y t IH]; simpl.
  - apply Permutation_refl.
  - destruct (ltb x y).
    + apply Permutation_refl.
    + apply perm_trans with (y :: x :: t).
      * apply perm_skip, IH.
      * apply perm_swap.
Qed.


Lemma fold_insert_perm (l acc : list datetime) :
  Permutation (fold_left (fun a x => insert x a) l acc) (l ++ acc).
Proof.
  revert acc. induction l as [| x t IH]; intro acc; simpl.
  - apply Permutation_refl.
  - eapply perm_trans; [apply IH |].
    eapply perm_trans; [apply Permutation_app_head, insert_perm |].
    apply Permutation_sym, Permutation_middle.
Qed.


Lemma sort_perm (l : list datetime) : Permutation (sort l) l.
Proof.
  unfold sort. eapply perm_trans; [apply fold_insert_perm |].
  rewrite app_nil_r. apply Permutation_refl.
Qed.





(** ** List comprehensions *)

Lemma comprehension_ok {A B : Type} (f : A -> result B) (l : list A)
    (ys : list B) :
  comprehension f l = Ok ys <-> Forall2 (fun x y => f x = Ok y) l ys.
Proof.
  revert ys. induction l as [| x t IH]; intro ys; simpl.
  - split; intro H.
    + injection H as <-. constructor.
    + inversion H. reflexivity.
  - destruct (f x) as [y | e] eqn:E; simpl.
    + destruct (comprehension f t) as [zs | e] eqn:C; simpl.
      * split; intro H.
        -- injection H as <-. constructor; [exact E |]. apply IH. reflexivity.
        -- inversion H as [| ? y' ? zs' Hy Hzs]; subst.
           apply IH in Hzs. congruence.
      * split; intro H; [discriminate |].
        inversion H as [| ? y' ? zs' Hy Hzs]; subst.
        apply IH in Hzs. discriminate.
    + split; intro H; [discriminate |].
      inversion H as [| ? y' ? zs' Hy Hzs]; subst. congruence.
Qed.

Lemma comprehension_all_ok {A B : Type} (f : A -> result B) (l : list A) :
  (forall x, In x l -> exists y, f x = Ok y) ->
  exists ys, comprehension f l = Ok ys.
Proof.
  induction l as [| x t IH]; intro H; simpl.
  - eexists. reflexivity.
  - destruct (H x (or_introl eq_refl)) as [y ->]. simpl.
    destruct IH as [ys ->]; [intros z Hz; apply H; right; exact Hz |].
    simpl. eexists. reflexivity.
Qed.

Lemma comprehension_raise {A B : Type} (f : A -> result B) (l : list A)
    (e : exn) :
  comprehension f l = Raise e ->
  exists pre x post, l = pre ++ x :: post /\ f x = Raise e /\
    forall z, In z pre -> exists y, f z = Ok y.
Proof.
  induction l as [| x t IH]; simpl; intro H; [discriminate |].
  destruct (f x) as [y | e'] eqn:E; simpl in H.
  - destruct (comprehension f t) as [zs | e''] eqn:C; simpl in H;
      [discriminate |].
    injection H as ->. destruct (IH eq_refl) as (pre & z & post & -> & Hz & Hp).
    exists (x :: pre), z, post. repeat split; [exact Hz |].
    intros w [<- | Hw]; [eexists; exact E | apply Hp, Hw].
  - injection H as ->. exists [], x, t. repeat split; [exact E |].
    intros z [].
Qed.


(** ** Whole days of a difference *)

Lemma days_new_timedelta (d s us : Z) :
  days (new_timedelta d s us) = ((d * 86400 + s) * 1000000 + us) / day_us.
Proof.
  unfold new_timedelta, day_us; simpl.
  replace 86400000000 with (1000000 * 86400) by reflexivity.
  rewrite <- Z.div_div by lia.
  rewrite Z.div_add_l by lia.
  replace (d * 86400 + s + us / 1000000)
    with (d * 86400 + (s + us / 1000000)) by ring.
  rewrite Z.div_add_l by lia. reflexivity.
Qed.

Lemma days_sub (a b : datetime) :
  days (sub a b) = (timestamp_us a - timestamp_us b) / day_us.
Proof.
  unfold sub. rewrite days_new_timedelta. f_equal.
  unfold timestamp_us. ring.
Qed.

Lemma total_us_sub (a b : datetime) :
  total_us (sub a b) = timestamp_us a - timestamp_us b.
Proof.
  unfold sub, new_timedelta, total_us, timestamp_us; simpl.
  set (s := second a + minute a * 60 + hour a * 3600
            - (second b + minute b * 60 + hour b * 3600)).
  set (u := microsecond a - microsecond b).
  pose proof (Z.div_mod u 1000000 ltac:(lia)) as Hu.
  pose proof (Z.div_mod (s + u / 1000000) 86400 ltac:(lia)) as Hs.
  lia.
Qed.

Lemma in_window_iff (date current_date : datetime) :
  in_window date current_date = true <->
  0 < days (sub date current_date) <= 7.
Proof.
  unfold in_window. rewrite andb_true_iff, Z.leb_le, Z.ltb_lt. lia.
Qed.

(** ** What [strptime] accepts, and [strftime] after it *)

Lemma digit_range (c : ascii) (x : Z) : digit c = Some x -> 0 <= x <= 9.
Proof.
  unfold digit.
  destruct ((48 <=? Z.of_N (N_of_ascii c)) && (Z.of_N (N_of_ascii c) <=? 57))
    eqn:E; [| discriminate].
  intro H. injection H as <-.
  apply andb_true_iff in E. destruct E as [E1 E2].
  apply Z.leb_le in E1, E2. lia.
Qed.

Lemma digit_ascii_of_digit (x : Z) :
  0 <= x <= 9 -> digit (ascii_of_digit x) = Some x.
Proof.
  intro H.
  assert (x = 0 \/ x = 1 \/ x = 2 \/ x = 3 \/ x = 4 \/ x = 5 \/ x = 6 \/
          x = 7 \/ x = 8 \/ x = 9) as C by lia.
  repeat (destruct C as [-> | C]; [reflexivity |]). subst. reflexivity.
Qed.

Lemma between_iff (lo hi x : Z) : between lo hi x = true <-> lo <= x <= hi.
Proof. unfold between. rewrite andb_true_iff, !Z.leb_le. tauto. Qed.

Lemma two_range (lo1 hi1 lo2 hi2 n : Z) (s r : string) :
  In (n, r) (two lo1 hi1 lo2 hi2 s) ->
  exists x y, n = 10 * x + y /\ lo1 <= x <= hi1 /\ lo2 <= y <= hi2.
Proof.
  unfold two. destruct s as [| a [| b t]]; try (intros []).
  destruct (digit a) as [x |]; [| intros []].
  destruct (digit b) as [y |]; [| intros []].
  destruct (between lo1 hi1 x && between lo2 hi2 y) eqn:E; [| intros []].
  apply andb_true_iff in E. rewrite !between_iff in E.
  intros [H | []]. injection H as <- _. exists x, y. tauto.
Qed.

Lemma one_range (lo hi n : Z) (s r : string) :
  In (n, r) (one lo hi s) -> lo <= n <= hi.
Proof.
  unfold one. destruct s as [| a t]; try (intros []).
  destruct (digit a) as [x |]; [| intros []].
  destruct (between lo hi x) eqn:E; [| intros []].
  apply between_iff in E. intros [H | []]. injection H as <- _. exact E.
Qed.

Lemma space_one_range (lo hi n : Z) (s r : string) :
  In (n, r) (space_one lo hi s) -> lo <= n <= hi.
Proof.
  unfold space_one. destruct s as [| a t]; try (intros []).
  destruct (Ascii.eqb a " "); [apply one_range | intros []].
Qed.

Lemma re_Y_range (n : Z) (s r : string) :
  In (n, r) (re_Y s) -> 0 <= n <= 9999.
Proof.
  unfold re_Y. destruct s as [| a [| b [| c [| d t]]]]; try (intros []).
  destruct (digit a) as [x |] eqn:Ea; [| intros []].
  destruct (digit b) as [y |] eqn:Eb; [| intros []].
  destruct (digit c) as [z |] eqn:Ec; [| intros []].
  destruct (digit d) as [w |] eqn:Ed; [| intros []].
  apply digit_range in Ea, Eb, Ec, Ed.
  remember (1000 * x + 100 * y + 10 * z + w) as v eqn:Ev.
  intros [H | []]. injection H as <- _. lia.
Qed.

Lemma re_m_range (n : Z) (s r : string) :
  In (n, r) (re_m s) -> 1 <= n <= 12.
Proof.
  unfold re_m, alt. rewrite !in_app_iff.
  intros [H | [H | H]];
    try (apply two_range in H; destruct H as (x & y & -> & Hx & Hy); lia).
  apply one_range in H. lia.
Qed.

Lemma re_d_range (n : Z) (s r : string) :
  In (n, r) (re_d s) -> 1 <= n <= 31.
Proof.
  unfold re_d, alt. rewrite !in_app_iff.
  intros [H | [H | [H | [H | H]]]];
    try (apply two_range in H; destruct H as (x & y & -> & Hx & Hy); lia).
  - apply one_range in H. lia.
  - apply space_one_range in H. lia.
Qed.

Lemma re_H_range (n : Z) (s r : string) :
  In (n, r) (re_H s) -> 0 <= n <= 23.
Proof.
  unfold re_H, alt. rewrite !in_app_iff.
  intros [H | [H | H]];
    try (apply two_range in H; destruct H as (x & y & -> & Hx & Hy); lia).
  apply one_range in H. lia.
Qed.

Lemma format_matches_range (s rest : string) (y m d h : Z) :
  In (y, m, d, h, rest) (format_matches s) ->
  0 <= y <= 9999 /\ 1 <= m <= 12 /\ 1 <= d <= 31 /\ 0 <= h <= 23.
Proof.
  unfold format_matches. rewrite in_flat_map.
  intros ([y' s1] & HY & H). rewrite in_flat_map in H.
  destruct H as ([m' s2] & HM & H). rewrite in_flat_map in H.
  destruct H as ([d' s3] & HD & H). rewrite in_map_iff in H.
  destruct H as ([h' s4] & E & HH). injection E as -> -> -> -> ->.
  apply re_Y_range in HY. apply re_m_range in HM.
  apply re_d_range in HD. apply re_H_range in HH. tauto.
Qed.

Lemma strptime_parsed (s : string) (t : datetime) :
  strptime s = Ok t -> parsed t.
Proof.
  unfold strptime.
  destruct (format_matches s) as [| [[[[y m] d] h] rest] l] eqn:E;
    [discriminate |].
  assert (In (y, m, d, h, rest) (format_matches s)) as H
    by (rewrite E; left; reflexivity).
  apply format_matches_range in H.
  destruct rest; [| discriminate].
  destruct ((1 <=? y) && (d <=? _days_in_month y m)) eqn:C; [| discriminate].
  apply andb_true_iff in C. destruct C as [C1 C2].
  apply Z.leb_le in C1, C2.
  intro T. injection T as <-. constructor; simpl; lia.
Qed.

Lemma strptime_raises_ValueError (s : string) (e : exn) :
  strptime s = Raise e -> e = ValueError.
Proof.
  unfold strptime.
  destruct (format_matches s) as [| [[[[y m] d] h] rest] l];
    [intro H; injection H as <-; reflexivity |].
  destruct rest; [| intro H; injection H as <-; reflexivity].
  destruct ((1 <=? y) && (d <=? _days_in_month y m)); [discriminate |].
  intro H. injection H as <-. reflexivity.
Qed.

Ltac small_cases n :=
  let k := fresh "k" in
  let Hk := fresh "Hk" in
  rewrite <- (Z2Nat.id n) in * by lia;
  generalize dependent (Z.to_nat n); intros k Hk;
  do 32 (destruct k as [| k];
         [try (exfalso; lia); try (vm_compute; reflexivity) |]);
  exfalso; lia.

Lemma hd_error_cons {A : Type} (l : list A) (x : A) :
  hd_error l = Some x -> exists t, l = x :: t.
Proof.
  destruct l as [| y t]; simpl; [discriminate |].
  intro H. injection H as ->. exists t. reflexivity.
Qed.

Lemma re_Y_pad4 (y : Z) (rest : string) :
  0 <= y <= 9999 -> re_Y (pad4 y rest) = [(y, rest)].
Proof.
  intro H. unfold pad4, pad2, re_Y.
  rewrite !digit_ascii_of_digit by (Z.div_mod_to_equations; lia).
  do 2 f_equal. Z.div_mod_to_equations. lia.
Qed.

Lemma re_m_pad2 (m : Z) (rest : string) :
  1 <= m <= 12 -> hd_error (re_m (pad2 m rest)) = Some (m, rest).
Proof. intro H. small_cases m. Qed.

Lemma re_d_pad2 (d : Z) (rest : string) :
  1 <= d <= 31 -> hd_error (re_d (pad2 d rest)) = Some (d, rest).
Proof. intro H. small_cases d. Qed.

Lemma re_H_pad2 (h : Z) (rest : string) :
  0 <= h <= 23 -> hd_error (re_H (pad2 h rest)) = Some (h, rest).
Proof. intro H. small_cases h. Qed.

Lemma days_in_month_le_31 (y m : Z) : _days_in_month y m <= 31.
Proof.
  unfold _days_in_month. destruct ((m =? 2) && _is_leap y); [lia |].
  destruct (Z.to_nat m) as [| k]; [simpl; lia |].
  do 12 (destruct k as [| k]; [simpl; lia |]).
  simpl. destruct k; lia.
Qed.

Lemma format_matches_strftime (t : datetime) :
  parsed t ->
  hd_error (format_matches (strftime t))
  = Some (year t, month t, day t, hour t, "").
Proof.
  intros [Hy Hm Hd Hh _ _ _].
  pose proof (days_in_month_le_31 (year t) (month t)) as H31.
  unfold format_matches, strftime.
  rewrite re_Y_pad4 by lia. cbn [flat_map].
  destruct (hd_error_cons _ _ (re_m_pad2 (month t)
    (pad2 (day t) (pad2 (hour t) "")) Hm)) as [l1 ->]. cbn [flat_map].
  destruct (hd_error_cons _ _ (re_d_pad2 (day t) (pad2 (hour t) "")
    ltac:(lia))) as [l2 ->]. cbn [flat_map].
  destruct (hd_error_cons _ _ (re_H_pad2 (hour t) "" Hh)) as [l3 ->].
  reflexivity.
Qed.

(** Writing a parsed datetime and parsing it again gives it back. *)
Lemma strptime_strftime (t : datetime) :
  parsed t -> strptime (strftime t) = Ok t.
Proof.
  intro P. pose proof (format_matches_strftime t P) as H.
  apply hd_error_cons in H. destruct H as [l H].
  unfold strptime. rewrite H.
  destruct P as [Hy Hm Hd Hh Hn Hs Hu].
  replace ((1 <=? year t) && (day t <=? _days_in_month (year t) (month t)))
    with true
    by (symmetry; apply andb_true_iff; split; apply Z.leb_le; lia).
  destruct t; simpl in *; subst; reflexivity.
Qed.

(** ** Keys of ten digits are what [strftime] writes *)

Lemma digit_inv (c : ascii) (x : Z) : digit c = Some x -> c = ascii_of_digit x.
Proof.
  unfold digit, ascii_of_digit.
  destruct ((48 <=? Z.of_N (N_of_ascii c)) && (Z.of_N (N_of_ascii c) <=? 57));
    [| discriminate].
  intro H. injection H as <-.
  replace (48 + (Z.of_N (N_of_ascii c) - 48)) with (Z.of_N (N_of_ascii c))
    by ring.
  rewrite N2Z.id, ascii_N_embedding. reflexivity.
Qed.

Lemma two_shape (lo1 hi1 lo2 hi2 n : Z) (s r : string) :
  In (n, r) (two lo1 hi1 lo2 hi2 s) -> s = pad2 n r.
Proof.
  unfold two. destruct s as [| a [| b t]]; try (intros []).
  destruct (digit a) as [x |] eqn:Ea; [| intros []].
  destruct (digit b) as [y |] eqn:Eb; [| intros []].
  destruct (between lo1 hi1 x && between lo2 hi2 y); [| intros []].
  pose proof (digit_range _ _ Ea) as Rx. pose proof (digit_range _ _ Eb) as Ry.
  apply digit_inv in Ea, Eb. subst a b.
  remember (10 * x + y) as v eqn:Ev.
  intros [H | []]. injection H as <- <-. unfold pad2.
  replace (v / 10) with x by (Z.div_mod_to_equations; lia).
  replace (v mod 10) with y by (Z.div_mod_to_equations; lia).
  reflexivity.
Qed.

Lemma one_shape (lo hi n : Z) (s r : string) :
  In (n, r) (one lo hi s) -> exists c, s = String c r.
Proof.
  unfold one. destruct s as [| a t]; try (intros []).
  destruct (digit a) as [x |]; [| intros []].
  destruct (between lo hi x); [| intros []].
  intros [H | []]. injection H as _ <-. exists a. reflexivity.
Qed.

Lemma space_one_shape (lo hi n : Z) (s r : string) :
  In (n, r) (space_one lo hi s) -> exists c, s = String " " (String c r).
Proof.
  unfold space_one. destruct s as [| a t]; try (intros []).
  destruct (Ascii.eqb_spec a " ") as [-> | N]; [| intros []].
  intro H. apply one_shape in H. destruct H as [c ->]. exists c. reflexivity.
Qed.

Lemma re_Y_shape (y : Z) (s r : string) :
  In (y, r) (re_Y s) -> s = pad4 y r.
Proof.
  unfold re_Y. destruct s as [| a [| b [| c [| d t]]]]; try (intros []).
  destruct (digit a) as [x1 |] eqn:Ea; [| intros []].
  destruct (digit b) as [x2 |] eqn:Eb; [| intros []].
  destruct (digit c) as [x3 |] eqn:Ec; [| intros []].
  destruct (digit d) as [x4 |] eqn:Ed; [| intros []].
  pose proof (digit_range _ _ Ea) as R1. pose proof (digit_range _ _ Eb) as R2.
  pose proof (digit_range _ _ Ec) as R3. pose proof (digit_range _ _ Ed) as R4.
  apply digit_inv in Ea, Eb, Ec, Ed. subst a b c d.
  remember (1000 * x1 + 100 * x2 + 10 * x3 + x4) as v eqn:Ev.
  intros [H | []]. injection H as <- <-. unfold pad4, pad2.
  replace (v / 1000) with x1 by (Z.div_mod_to_equations; lia).
  replace (v / 100 mod 10) with x2 by (Z.div_mod_to_equations; lia).
  replace (v mod 100 / 10) with x3 by (Z.div_mod_to_equations; lia).
  replace ((v mod 100) mod 10) with x4 by (Z.div_mod_to_equations; lia).
  reflexivity.
Qed.

Lemma re_m_shape (n : Z) (s r : string) :
  In (n, r) (re_m s) -> s = pad2 n r \/ exists c, s = String c r.
Proof.
  unfold re_m, alt. rewrite !in_app_iff.
  intros [H | [H | H]];
    [left; eapply two_shape, H .. | right; eapply one_shape, H].
Qed.

Lemma re_H_shape (n : Z) (s r : string) :
  In (n, r) (re_H s) -> s = pad2 n r \/ exists c, s = String c r.
Proof.
  unfold re_H, alt. rewrite !in_app_iff.
  intros [H | [H | H]];
    [left; eapply two_shape, H .. | right; eapply one_shape, H].
Qed.

Lemma re_d_shape (n : Z) (s r : string) :
  In (n, r) (re_d s) ->
  s = pad2 n r \/ (exists c, s = String c r) \/
  exists c, s = String " " (String c r).
Proof.
  unfold re_d, alt. rewrite !in_app_iff.
  intros [H | [H | [H | [H | H]]]];
    [left; eapply two_shape, H .. | right; left; eapply one_shape, H
    | right; right; eapply space_one_shape, H].
Qed.

Lemma strptime_inv (s : string) (t : datetime) :
  strptime s = Ok t ->
  In (year t, month t, day t, hour t, "") (format_matches s).
Proof.
  unfold strptime.
  destruct (format_matches s) as [| [[[[y m] d] h] rest] l]; [discriminate |].
  destruct rest; [| discriminate].
  destruct ((1 <=? y) && (d <=? _days_in_month y m)); [| discriminate].
  intro H. injection H as <-. left. reflexivity.
Qed.

Lemma snapshot_key_strftime (key : string) (date : datetime) :
  SnapshotKey key = true -> strptime key = Ok date -> strftime date = key.
Proof.
  unfold SnapshotKey. rewrite andb_true_iff, Nat.eqb_eq.
  intros [Hlen Hdig] Hp. apply strptime_inv in Hp.
  unfold format_matches in Hp. rewrite in_flat_map in Hp.
  destruct Hp as ([y s1] & HY & Hp). rewrite in_flat_map in Hp.
  destruct Hp as ([m s2] & HM & Hp). rewrite in_flat_map in Hp.
  destruct Hp as ([d s3] & HD & Hp). rewrite in_map_iff in Hp.
  destruct Hp as ([h s4] & E & HH). injection E as -> -> -> -> ->.
  apply re_Y_shape in HY. apply re_m_shape in HM.
  apply re_d_shape in HD. apply re_H_shape in HH.
  unfold strftime. subst key. unfold pad4, pad2 in Hlen, Hdig.
  destruct HM as [-> | [c ->]];
    destruct HD as [-> | [[c' ->] | [c' ->]]];
    destruct HH as [-> | [c'' ->]];
    unfold pad2 in *; simpl in Hlen; try lia; try reflexivity.
  exfalso. simpl in Hdig.
  repeat match type of Hdig with
         | match digit ?c with _ => _ end = true =>
           destruct (digit c); [| discriminate]
         end.
  discriminate.
Qed.

(** ** The order on parsed datetimes is the order of time *)









Lemma Forall2_In_l {A B : Type} (R : A -> B -> Prop) (l : list A)
    (l' : list B) (x : A) :
  Forall2 R l l' -> In x l -> exists y, In y l' /\ R x y.
Proof.
  induction 1 as [| a b t t' Hab Ht IH]; intros Hx; [destruct Hx |].
  destruct Hx as [<- | Hx].
  - exists b. split; [left; reflexivity | exact Hab].
  - destruct (IH Hx) as (y & Hy & Hxy). exists y. split; [right |]; assumption.
Qed.

Lemma Forall2_In_r {A B : Type} (R : A -> B -> Prop) (l : list A)
    (l' : list B) (y : B) :
  Forall2 R l l' -> In y l' -> exists x, In x l /\ R x y.
Proof.
  induction 1 as [| a b t t' Hab Ht IH]; intros Hy; [destruct Hy |].
  destruct Hy as [<- | Hy].
  - exists a. split; [left; reflexivity | exact Hab].
  - destruct (IH Hy) as (x & Hx & Hxy). exists x. split; [right |]; assumption.
Qed.

Lemma comprehension_ext {A B : Type} (f g : A -> result B) (l : list A) :
  (forall x, In x l -> f x = g x) -> comprehension f l = comprehension g l.
Proof.
  induction l as [| x t IH]; intro H; simpl; [reflexivity |].
  rewrite (H x (or_introl eq_refl)), IH; [reflexivity |].
  intros z Hz. apply H. right. exact Hz.
Qed.

Lemma comprehension_first_raise {A B : Type} (f : A -> result B)
    (pre post : list A) (x : A) (e : exn) :
  (forall z, In z pre -> exists y, f z = Ok y) -> f x = Raise e ->
  comprehension f (pre ++ x :: post) = Raise e.
Proof.
  induction pre as [| z t IH]; intros Hp Hx; simpl.
  - rewrite Hx. reflexivity.
  - destruct (Hp z (or_introl eq_refl)) as [y ->]. simpl.
    rewrite IH; [reflexivity | | exact Hx].
    intros u Hu. apply Hp. right. exact Hu.
Qed.

(** ** The selection of lines 82-98 *)

Lemma forecast_date_lst_inv (forecast_dict : dict string)
    (current_date : datetime) (selected : list string) :
  forecast_date_lst forecast_dict current_date = Ok selected ->
  exists dl, date_lst forecast_dict = Ok dl /\
    selected = map strftime
      (sort (filter (fun date => in_window date current_date) dl)).
Proof.
  unfold forecast_date_lst.
  destruct (date_lst forecast_dict) as [dl | e]; simpl; [| discriminate].
  intro H. injection H as <-. exists dl. split; reflexivity.
Qed.

Lemma selected_In (forecast_dict : dict string) (current_date : datetime)
    (selected : list string) :
  forecast_date_lst forecast_dict current_date = Ok selected ->
  forall k, In k selected <->
    exists key date, In key (keys forecast_dict) /\ strptime key = Ok date /\
      in_window date current_date = true /\ k = strftime date.
Proof.
  intro H. apply forecast_date_lst_inv in H. destruct H as (dl & Hd & ->).
  unfold date_lst in Hd. apply comprehension_ok in Hd.
  intro k. rewrite in_map_iff. split.
  - intros (date & <- & Hin).
    apply (Permutation_in _ (sort_perm _)) in Hin.
    apply filter_In in Hin. destruct Hin as [Hin Hw].
    destruct (Forall2_In_r _ _ _ _ Hd Hin) as (key & Hk & Hp).
    exists key, date. repeat split; assumption.
  - intros (key & date & Hk & Hp & Hw & ->).
    exists date. split; [reflexivity |].
    apply (Permutation_in _ (Permutation_sym (sort_perm _))).
    apply filter_In. split; [| exact Hw].
    destruct (Forall2_In_l _ _ _ _ Hd Hk) as (date' & Hin & Hp').
    congruence.
Qed.

Lemma selected_parses (forecast_dict : dict string) (current_date : datetime)
    (selected : list string) (k : string) :
  forecast_date_lst forecast_dict current_date = Ok selected ->
  In k selected ->
  exists date, strptime k = Ok date /\ in_window date current_date = true.
Proof.
  intros H Hk. apply (selected_In _ _ _ H) in Hk.
  destruct Hk as (key & date & _ & Hp & Hw & ->).
  exists date. split; [| exact Hw].
  apply strptime_strftime. eapply strptime_parsed, Hp.
Qed.

(** C1. For every catalog and reference instant for which the selection is
    produced, the selected keys are exactly the catalog keys, as [strftime]
    writes them, whose parsed timestamp satisfies
    [0 < (parsed - reference).days <= 7]: every selected key parses to a
    timestamp in that range; a catalog key of ten digits is selected if and
    only if its timestamp is in that range, so that for a catalog of such
    keys the selected set is the set of catalog keys in that range; a key
    whose whole-day difference is 7 is selected; and [.days] is the floor of
    the elapsed time in days. *)
Theorem window_filter_exact (forecast_dict : dict string)
    (current_date : datetime) (selected : list string) :
  forecast_date_lst forecast_dict current_date = Ok selected ->
  (forall k, In k selected ->
     exists date, strptime k = Ok date /\
       0 < days (sub date current_date) <= 7) /\
  (forall k, In k selected <->
     exists key date, In key (keys forecast_dict) /\ strptime key = Ok date /\
       0 < days (sub date current_date) <= 7 /\ k = strftime date) /\
  (forall key date, In key (keys forecast_dict) -> SnapshotKey key = true ->
     strptime key = Ok date ->
     (In key selected <-> 0 < days (sub date current_date) <= 7)) /\
  (Forall (fun key => SnapshotKey key = true) (keys forecast_dict) ->
   forall k, In k selected <->
     In k (keys forecast_dict) /\
     exists date, strptime k = Ok date /\
       0 < days (sub date current_date) <= 7) /\
  (forall key date, In key (keys forecast_dict) -> SnapshotKey key = true ->
     strptime key = Ok date -> days (sub date current_date) = 7 ->
     In key selected) /\
  (forall date, days (sub date current_date)
     = (timestamp_us date - timestamp_us current_date) / day_us).
Proof.
  intro H.
  assert (forall key date, In key (keys forecast_dict) ->
            SnapshotKey key = true -> strptime key = Ok date ->
            (In key selected <-> 0 < days (sub date current_date) <= 7)) as H3.
  { intros key date Hk Hs Hp. rewrite <- in_window_iff. split.
    - intro Hin. destruct (selected_parses _ _ _ _ H Hin) as (d & Hd & Hw).
      congruence.
    - intro Hw. apply (selected_In _ _ _ H).
      exists key, date. repeat split; try assumption.
      symmetry. apply snapshot_key_strftime; assumption. }
  assert (forall k, In k selected ->
            exists date, strptime k = Ok date /\
              0 < days (sub date current_date) <= 7) as H1.
  { intros k Hk. destruct (selected_parses _ _ _ _ H Hk) as (d & Hd & Hw).
    exists d. split; [exact Hd | apply in_window_iff, Hw]. }
  split; [exact H1 |]. split; [| split; [exact H3 | split; [| split]]].
  - intro k. rewrite (selected_In _ _ _ H).
    split; intros (key & date & Hk & Hp & Hw & E); exists key, date;
      repeat split; try assumption; apply in_window_iff; assumption.
  - intros Hall k. rewrite Forall_forall in Hall. split.
    + intro Hin. split; [| apply H1, Hin].
      apply (selected_In _ _ _ H) in Hin.
      destruct Hin as (key & date & Hk & Hp & _ & ->).
      rewrite (snapshot_key_strftime key date (Hall key Hk) Hp). exact Hk.
    + intros (Hk & date & Hp & Hw). apply (H3 k date Hk (Hall k Hk) Hp), Hw.
  - intros key date Hk Hs Hp H7. apply (H3 key date Hk Hs Hp). lia.
  - intro date. apply days_sub.
Qed.

Lemma window_filter_exact_witness :
  forecast_date_lst boundary_catalog march_1 = Ok ["2024030800"] /\
  In "2024030800" ["2024030800"].
Proof.
  split; [reflexivity |].
  destruct (window_filter_exact boundary_catalog march_1 ["2024030800"] eq_refl)
    as (_ & _ & _ & _ & H7 & _).
  apply (H7 "2024030800" (mkdatetime 2024 3 8 0 0 0 0));
    [left; reflexivity | reflexivity ..].
Defined.

(** C2, as stated: the selection for the scenario is not [A, B]. *)
Lemma scenario_selection_is_not_A_B :
  forecast_date_lst scenario_catalog march_1
  <> Ok ["2024030106"; "2024030206"].
Proof. vm_compute. discriminate. Qed.

(** C2, amended. With reference instant 2024-03-01T00:00 and the catalog
    keys 2024030106 (A), 2024030206 (B), 2024030900 (C) and 2024022900 (D)
    the selection is the key of B alone: A is 6 hours ahead, a whole-day
    difference of 0, C has 8 and D has -1. *)
Theorem scenario_selection :
  forecast_date_lst scenario_catalog march_1 = Ok ["2024030206"] /\
  days (sub (mkdatetime 2024 3 1 6 0 0 0) march_1) = 0 /\
  days (sub (mkdatetime 2024 3 2 6 0 0 0) march_1) = 1 /\
  days (sub (mkdatetime 2024 3 9 0 0 0 0) march_1) = 8 /\
  days (sub (mkdatetime 2024 2 29 0 0 0 0) march_1) = -1.
Proof. repeat split; reflexivity. Qed.

(** C9. A key whose parsed timestamp is after the reference instant by
    less than one day has a whole-day difference of 0 and is not
    selected. *)
Theorem same_day_key_excluded (forecast_dict : dict string)
    (current_date : datetime) (selected : list string) (key : string)
    (date : datetime) :
  forecast_date_lst forecast_dict current_date = Ok selected ->
  strptime key = Ok date ->
  0 < total_us (sub date current_date) < day_us ->
  days (sub date current_date) = 0 /\ ~ In key selected.
Proof.
  intros H Hp Hus.
  assert (days (sub date current_date) = 0) as H0.
  { rewrite days_sub, <- total_us_sub. apply Z.div_small. lia. }
  split; [exact H0 |].
  intro Hin. destruct (selected_parses _ _ _ _ H Hin) as (d & Hd & Hw).
  assert (d = date) as -> by congruence.
  apply in_window_iff in Hw. lia.
Qed.

Lemma same_day_key_excluded_witness :
  days (sub (mkdatetime 2024 3 1 6 0 0 0) march_1) = 0 /\
  ~ In "2024030106" [].
Proof.
  apply (same_day_key_excluded same_day_catalog march_1 [] "2024030106"
           (mkdatetime 2024 3 1 6 0 0 0)).
  - reflexivity.
  - reflexivity.
  - vm_compute. split; reflexivity.
Defined.

(** ** Iteration order of the catalog *)

Lemma getitem_notin {V : Type} (d : dict V) (k : string) :
  ~ In k (keys d) -> getitem d k = Raise (KeyError k).
Proof.
  induction d as [| [k' v] t IH]; simpl; intro H; [reflexivity |].
  destruct (String.eqb_spec k' k) as [-> | N]; [tauto |].
  apply IH. tauto.
Qed.






(** ** The whole method *)

Section Build.

Variable Row : Type.
Variable self : dfs0_pipeline.
Variable w : World Row.
Variable forecast_dict : dict string.
Hypothesis catalog :
  get_seven_day_forcast_files w (root_dir self) (client_name self)
  = Ok forecast_dict.

Lemma build_unfold :
  build_seven_day_forecast_data self w =
  (date_keys <- forecast_date_lst forecast_dict (today w) ;;
   dfs <- forecast_df_lst w forecast_dict date_keys ;;
   concat_or_none dfs).
Proof. unfold build_seven_day_forecast_data. rewrite catalog. reflexivity. Qed.

Lemma build_empty :
  forecast_date_lst forecast_dict (today w) = Ok [] ->
  build_seven_day_forecast_data self w = Ok None.
Proof. intro H. rewrite build_unfold, H. reflexivity. Qed.

Lemma build_malformed (key : string) :
  In key (keys forecast_dict) -> (forall date, strptime key <> Ok date) ->
  build_seven_day_forecast_data self w = Raise ValueError.
Proof.
  intros Hk Hbad. rewrite build_unfold. unfold forecast_date_lst, date_lst.
  destruct (comprehension strptime (keys forecast_dict)) as [dl | e] eqn:E.
  - apply comprehension_ok in E.
    destruct (Forall2_In_l _ _ _ _ E Hk) as (date & _ & Hd).
    exfalso. exact (Hbad date Hd).
  - apply comprehension_raise in E.
    destruct E as (pre & x & post & _ & Hx & _).
    apply strptime_raises_ValueError in Hx. subst. reflexivity.
Qed.

Lemma build_ingest_raises (selected : list string) (e : exn) :
  forecast_date_lst forecast_dict (today w) = Ok selected ->
  forecast_df_lst w forecast_dict selected = Raise e ->
  build_seven_day_forecast_data self w = Raise e.
Proof. intros H1 H2. rewrite build_unfold, H1. simpl. rewrite H2. reflexivity. Qed.

End Build.

(** C3. The code at the failing input. With a catalog that holds only a
    past run the selection is empty; the claim, and the Raises section of
    the docstring (lines 67-71), have the call fail with an error there,
    and the code returns [None] and raises nothing. *)
Lemma empty_window_raises_nothing :
  forecast_date_lst past_catalog march_1 = Ok [] /\
  build_seven_day_forecast_data pipeline (world march_1 past_catalog ingest_ok)
  = Ok None /\
  ~ exists e,
      build_seven_day_forecast_data pipeline
        (world march_1 past_catalog ingest_ok) = Raise e.
Proof.
  split; [reflexivity |]. split; [reflexivity |].
  intros [e H]. vm_compute in H. discriminate.
Qed.

(** C8. When the selected-key sequence is empty nothing is ingested, the
    [ValueError] of [pd.concat] on the empty list is caught inside the
    method, the method returns [None] and no exception leaves it. *)
Theorem empty_selection_returns_None (Row : Type) (self : dfs0_pipeline)
    (w : World Row) (forecast_dict : dict string) :
  get_seven_day_forcast_files w (root_dir self) (client_name self)
  = Ok forecast_dict ->
  forecast_date_lst forecast_dict (today w) = Ok [] ->
  forecast_df_lst w forecast_dict [] = Ok [] /\
  pd_concat (@nil (DataFrame Row)) = Raise ValueError /\
  concat_or_none (@nil (DataFrame Row)) = Ok None /\
  build_seven_day_forecast_data self w = Ok None /\
  forall e, build_seven_day_forecast_data self w <> Raise e.
Proof.
  intros C H. rewrite (build_empty Row self w forecast_dict C H).
  repeat split. intros e. discriminate.
Qed.

Lemma empty_selection_returns_None_witness :
  forecast_df_lst (world march_1 same_day_catalog ingest_fail)
    same_day_catalog [] = Ok [] /\
  pd_concat (@nil (DataFrame string)) = Raise ValueError /\
  concat_or_none (@nil (DataFrame string)) = Ok None /\
  build_seven_day_forecast_data pipeline
    (world march_1 same_day_catalog ingest_fail) = Ok None /\
  forall e,
    build_seven_day_forecast_data pipeline
      (world march_1 same_day_catalog ingest_fail) <> Raise e.
Proof.
  apply (empty_selection_returns_None string pipeline
           (world march_1 same_day_catalog ingest_fail) same_day_catalog);
    reflexivity.
Defined.

(** C6. When the catalog holds a key that [strptime] rejects with the
    format [%Y%m%d%H], the call raises the [ValueError] of [strptime]: it
    neither returns a dataframe nor [None]. *)
Theorem malformed_key_raises (Row : Type) (self : dfs0_pipeline)
    (w : World Row) (forecast_dict : dict string) (key : string) :
  get_seven_day_forcast_files w (root_dir self) (client_name self)
  = Ok forecast_dict ->
  In key (keys forecast_dict) ->
  (forall date, strptime key <> Ok date) ->
  build_seven_day_forecast_data self w = Raise ValueError /\
  forall e, forecast_date_lst forecast_dict (today w) = Raise e ->
    e = ValueError.
Proof.
  intros C Hk Hbad. split.
  - exact (build_malformed Row self w forecast_dict C key Hk Hbad).
  - intros e. unfold forecast_date_lst, date_lst.
    destruct (comprehension strptime (keys forecast_dict)) as [dl | e'] eqn:E;
      simpl; [discriminate |].
    intro H. injection H as ->.
    apply comprehension_raise in E. destruct E as (pre & x & post & _ & Hx & _).
    eapply strptime_raises_ValueError, Hx.
Qed.

Lemma malformed_key_raises_witness :
  build_seven_day_forecast_data pipeline
    (world march_1 malformed_catalog ingest_ok) = Raise ValueError /\
  forall e, forecast_date_lst malformed_catalog march_1 = Raise e ->
    e = ValueError.
Proof.
  apply (malformed_key_raises string pipeline
           (world march_1 malformed_catalog ingest_ok) malformed_catalog
           "notadate").
  - reflexivity.
  - right. left. reflexivity.
  - intros date H. vm_compute in H. discriminate.
Defined.

(** C5, as stated: two catalogs whose only selected key differs, read by
    the same failing engine, fail with the same exception, the one the
    engine raised; no key can be read off it. *)
Lemma ingestion_failure_carries_no_key :
  forecast_date_lst catalog_B march_1 = Ok ["2024030206"] /\
  forecast_date_lst catalog_G march_1 = Ok ["2024030306"] /\
  build_seven_day_forecast_data pipeline (world march_1 catalog_B ingest_fail)
  = Raise (OtherError "OSError") /\
  build_seven_day_forecast_data pipeline (world march_1 catalog_G ingest_fail)
  = Raise (OtherError "OSError") /\
  ~ exists key_of : result (option (DataFrame string)) -> string,
      key_of (build_seven_day_forecast_data pipeline
                (world march_1 catalog_B ingest_fail)) = "2024030206" /\
      key_of (build_seven_day_forecast_data pipeline
                (world march_1 catalog_G ingest_fail)) = "2024030306".
Proof.
  repeat split; try reflexivity.
  intros (key_of & HB & HG).
  change (build_seven_day_forecast_data pipeline
            (world march_1 catalog_G ingest_fail))
    with (build_seven_day_forecast_data pipeline
            (world march_1 catalog_B ingest_fail)) in HG.
  rewrite HB in HG. discriminate.
Qed.

(** C5, amended. If the ingestion of a selected file fails the whole call
    fails and returns no dataframe, partial or not; the exception is the
    one the ingestion engine raised for the first file that fails, in the
    order of the selection, passed on as it is. *)
Theorem ingestion_failure_propagates (Row : Type) (self : dfs0_pipeline)
    (w : World Row) (forecast_dict : dict string) (selected : list string) :
  get_seven_day_forcast_files w (root_dir self) (client_name self)
  = Ok forecast_dict ->
  forecast_date_lst forecast_dict (today w) = Ok selected ->
  (forall key path e0, In key selected ->
     getitem forecast_dict key = Ok path ->
     dfs0_ingestion_engine w path = Raise e0 ->
     exists e, build_seven_day_forecast_data self w = Raise e) /\
  (forall pre key post path e, selected = pre ++ key :: post ->
     (forall k, In k pre -> exists p df,
        getitem forecast_dict k = Ok p /\ dfs0_ingestion_engine w p = Ok df) ->
     getitem forecast_dict key = Ok path ->
     dfs0_ingestion_engine w path = Raise e ->
     build_seven_day_forecast_data self w = Raise e).
Proof.
  intros C H. split.
  - intros key path e0 Hk Hg Hi.
    destruct (forecast_df_lst w forecast_dict selected) as [dfs | e] eqn:E.
    + unfold forecast_df_lst in E. apply comprehension_ok in E.
      destruct (Forall2_In_l _ _ _ _ E Hk) as (df & _ & Hdf).
      rewrite Hg in Hdf. simpl in Hdf. congruence.
    + exists e. exact (build_ingest_raises Row self w forecast_dict C selected e H E).
  - intros pre key post path e -> Hpre Hg Hi.
    apply (build_ingest_raises Row self w forecast_dict C _ e H).
    unfold forecast_df_lst. apply comprehension_first_raise.
    + intros k Hk. destruct (Hpre k Hk) as (p & df & Hp & Hdf).
      exists df. rewrite Hp. exact Hdf.
    + rewrite Hg. exact Hi.
Qed.

Lemma ingestion_failure_propagates_witness :
  build_seven_day_forecast_data pipeline
    (world march_1 ordered_catalog (ingest_fail_on "G.dfs0"))
  = Raise (OtherError "OSError").
Proof.
  refine (proj2 (ingestion_failure_propagates string pipeline
            (world march_1 ordered_catalog (ingest_fail_on "G.dfs0"))
            ordered_catalog ["2024030206"; "2024030306"; "2024030506"]
            eq_refl eq_refl)
          ["2024030206"] "2024030306" ["2024030506"] "G.dfs0"
          (OtherError "OSError") eq_refl _ eq_refl eq_refl).
  intros k [<- | []]. exists "B.dfs0", ["B.dfs0"]. split; reflexivity.
Defined.

(** C7, as stated: the method takes no reference instant, it reads the
    clock. Two calls on the same pipeline with the same catalog and the
    same ingestion engine, made on two different days, differ. *)
Lemma result_depends_on_the_clock :
  get_seven_day_forcast_files (world march_1 catalog_B ingest_ok)
  = get_seven_day_forcast_files (world march_2 catalog_B ingest_ok) /\
  dfs0_ingestion_engine (world march_1 catalog_B ingest_ok)
  = dfs0_ingestion_engine (world march_2 catalog_B ingest_ok) /\
  build_seven_day_forecast_data pipeline (world march_1 catalog_B ingest_ok)
  = Ok (Some ["data.dfs0"]) /\
  build_seven_day_forecast_data pipeline (world march_2 catalog_B ingest_ok)
  = Ok None /\
  build_seven_day_forecast_data pipeline (world march_1 catalog_B ingest_ok)
  <> build_seven_day_forecast_data pipeline (world march_2 catalog_B ingest_ok).
Proof.
  repeat split; try reflexivity. vm_compute. discriminate.
Qed.

(** C7, amended. The reference instant is the clock reading of the call,
    and the outcome depends on it only through the keys it selects. Two
    calls against the same catalog, with the same result of the ingestion
    engine for every path, have the same outcome (the same dataframe with
    the same row order, [None] both times, or the same exception) whenever
    their clock readings give the same selection, and so whenever they
    read the same instant. *)
Theorem build_same_selection_same_outcome (Row : Type)
    (self : dfs0_pipeline) (w1 w2 : World Row) :
  get_seven_day_forcast_files w1 (root_dir self) (client_name self)
  = get_seven_day_forcast_files w2 (root_dir self) (client_name self) ->
  (forall path, dfs0_ingestion_engine w1 path = dfs0_ingestion_engine w2 path) ->
  ((forall forecast_dict,
      get_seven_day_forcast_files w1 (root_dir self) (client_name self)
      = Ok forecast_dict ->
      forecast_date_lst forecast_dict (today w1)
      = forecast_date_lst forecast_dict (today w2)) ->
   build_seven_day_forecast_data self w1
   = build_seven_day_forecast_data self w2) /\
  (today w1 = today w2 ->
   build_seven_day_forecast_data self w1
   = build_seven_day_forecast_data self w2).
Proof.
  intros Hc Hi.
  assert ((forall forecast_dict,
             get_seven_day_forcast_files w1 (root_dir self) (client_name self)
             = Ok forecast_dict ->
             forecast_date_lst forecast_dict (today w1)
             = forecast_date_lst forecast_dict (today w2)) ->
          build_seven_day_forecast_data self w1
          = build_seven_day_forecast_data self w2) as Hsel.
  { intro Hs. unfold build_seven_day_forecast_data. rewrite <- Hc.
    destruct (get_seven_day_forcast_files w1 (root_dir self)
                (client_name self)) as [forecast_dict | e];
      simpl; [| reflexivity].
    rewrite <- (Hs forecast_dict eq_refl).
    destruct (forecast_date_lst forecast_dict (today w1)) as [date_keys | e];
      simpl; [| reflexivity].
    replace (forecast_df_lst w2 forecast_dict date_keys)
      with (forecast_df_lst w1 forecast_dict date_keys); [reflexivity |].
    unfold forecast_df_lst. apply comprehension_ext. intros k _.
    destruct (getitem forecast_dict k) as [path | e]; simpl;
      [apply Hi | reflexivity]. }
  split; [exact Hsel |].
  intro Ht. apply Hsel. intros forecast_dict _. rewrite Ht. reflexivity.
Qed.

Lemma build_same_selection_same_outcome_witness :
  build_seven_day_forecast_data pipeline
    (world march_1 ordered_catalog ingest_ok)
  = build_seven_day_forecast_data pipeline
      (world march_1_0530 ordered_catalog ingest_ok).
Proof.
  refine (proj1 (build_same_selection_same_outcome string pipeline
            (world march_1 ordered_catalog ingest_ok)
            (world march_1_0530 ordered_catalog ingest_ok)
            eq_refl (fun path => eq_refl)) _).
  intros forecast_dict H. injection H as <-. reflexivity.
Defined.

(** ** The polar plot *)

Section Polar.

Import Dashboard.

Variable Cell : Type.
Variable math_call : string -> Series Cell -> result (Series Cell).

Lemma math_has_no_degree :
  math_getattr Cell math_call "degree" = Raise AttributeError.
Proof. reflexivity. Qed.

Lemma to_degree_raises (x : Series Cell) :
  to_degree Cell math_call x = Raise AttributeError.
Proof. reflexivity. Qed.

Lemma apply_to_degree (theta : Frame Cell) :
  apply Cell (to_degree Cell math_call) theta
  = if no_cells Cell theta then Ok theta else Raise AttributeError.
Proof.
  unfold apply. destruct (no_cells Cell theta) eqn:E; [reflexivity |].
  destruct theta as [| [label col] t]; [discriminate |]. reflexivity.
Qed.

Lemma converted_theta_id (theta : Frame Cell) :
  converted_theta Cell math_call theta = theta.
Proof.
  unfold converted_theta. rewrite apply_to_degree.
  destruct (no_cells Cell theta); reflexivity.
Qed.

End Polar.

(** C10. In [create_polar_plot] the conversion of theta to degrees is never
    applied. [math] has no attribute [degree], so the conversion function
    raises [AttributeError] on every argument; [apply] raises it on every
    frame that has a cell and returns any other frame as it is; the value
    of theta after the [try] statement is the frame [get_node_data]
    returned, and the method gives what it would give without the [try]
    statement. *)
Theorem theta_never_converted (Cell Coord : Type)
    (math_call : string -> Dashboard.Series Cell
                 -> result (Dashboard.Series Cell))
    (get_node_data : Coord -> string -> result (Dashboard.Frame Cell)) :
  Dashboard.math_getattr Cell math_call "degree" = Raise AttributeError /\
  (forall x, Dashboard.to_degree Cell math_call x = Raise AttributeError) /\
  (forall theta, Dashboard.no_cells Cell theta = false ->
     Dashboard.apply Cell (Dashboard.to_degree Cell math_call) theta
     = Raise AttributeError) /\
  (forall theta, Dashboard.converted_theta Cell math_call theta = theta) /\
  (forall node r_column theta_column,
     Dashboard.create_polar_plot Cell math_call Coord get_node_data
       node r_column theta_column
     = Dashboard.create_polar_plot_unconverted Cell Coord get_node_data
         node r_column theta_column).
Proof.
  split; [reflexivity |]. split; [reflexivity |]. split; [| split].
  - intros theta H. rewrite apply_to_degree, H. reflexivity.
  - apply converted_theta_id.
  - intros node r_column theta_column.
    unfold Dashboard.create_polar_plot, Dashboard.create_polar_plot_unconverted.
    destruct (get_node_data node r_column) as [r | e]; [| reflexivity].
    simpl. destruct (get_node_data node theta_column) as [theta | e];
      [| reflexivity].
    simpl. rewrite converted_theta_id. reflexivity.
Qed.

(** * Further properties of [build_seven_day_forecast_data] *)

(** X1. The test of lines 90-91 in elapsed time: a run is kept exactly when
    it lies at least one day and less than eight days after the reference
    instant. *)
Theorem in_window_elapsed (date current_date : datetime) :
  in_window date current_date = true <->
  day_us <= timestamp_us date - timestamp_us current_date < 8 * day_us.
Proof.
  rewrite in_window_iff, days_sub. unfold day_us.
  Z.div_mod_to_equations. lia.
Qed.

Lemma forecast_df_lst_ok (Row : Type) (w : World Row)
    (forecast_dict : dict string) (selected : list string)
    (dfs : list (DataFrame Row)) :
  forecast_df_lst w forecast_dict selected = Ok dfs <->
  Forall2 (fun k f => exists path,
             getitem forecast_dict k = Ok path /\
             dfs0_ingestion_engine w path = Ok f) selected dfs.
Proof.
  unfold forecast_df_lst. rewrite comprehension_ok.
  split; intro H; induction H as [| k f t t' Hk Ht IH]; constructor;
    try exact IH.
  - destruct (getitem forecast_dict k) as [path | e]; simpl in Hk;
      [| discriminate].
    exists path. split; [reflexivity | exact Hk].
  - destruct Hk as (path & -> & Hk). exact Hk.
Qed.

Lemma build_returns_frame_inv (Row : Type) (self : dfs0_pipeline)
    (w : World Row) (forecast_dict : dict string)
    (forecast_df : DataFrame Row) :
  get_seven_day_forcast_files w (root_dir self) (client_name self)
  = Ok forecast_dict ->
  build_seven_day_forecast_data self w = Ok (Some forecast_df) ->
  exists selected dfs,
    forecast_date_lst forecast_dict (today w) = Ok selected /\
    Forall2 (fun k f => exists path,
               getitem forecast_dict k = Ok path /\
               dfs0_ingestion_engine w path = Ok f) selected dfs /\
    forecast_df = List.concat dfs.
Proof.
  intro C. rewrite (build_unfold Row self w forecast_dict C).
  destruct (forecast_date_lst forecast_dict (today w)) as [selected | e];
    simpl; [| discriminate].
  destruct (forecast_df_lst w forecast_dict selected) as [dfs | e] eqn:E;
    simpl; [| discriminate].
  apply forecast_df_lst_ok in E.
  destruct dfs as [| f dfs']; [discriminate |].
  unfold concat_or_none, pd_concat. intro H. injection H as <-.
  exists selected, (f :: dfs'). repeat split; assumption.
Qed.

(** X2. A returned dataframe leaves out no file of the window: if the call
    returns a dataframe, then for every ten-digit key of the catalog whose
    run lies in the window the engine has ingested the file of that key,
    and every row of that frame is in the dataframe. *)
Theorem returned_frame_holds_window_files (Row : Type)
    (self : dfs0_pipeline) (w : World Row) (forecast_dict : dict string)
    (forecast_df : DataFrame Row) :
  get_seven_day_forcast_files w (root_dir self) (client_name self)
  = Ok forecast_dict ->
  build_seven_day_forecast_data self w = Ok (Some forecast_df) ->
  forall key date,
    In key (keys forecast_dict) -> SnapshotKey key = true ->
    strptime key = Ok date -> 0 < days (sub date (today w)) <= 7 ->
    exists path f,
      getitem forecast_dict key = Ok path /\
      dfs0_ingestion_engine w path = Ok f /\
      incl f forecast_df.
Proof.
  intros C B key date Hk Hs Hp Hw.
  destruct (build_returns_frame_inv Row self w forecast_dict forecast_df C B)
    as (selected & dfs & S & F & ->).
  assert (In key selected) as Hin.
  { apply (selected_In _ _ _ S). exists key, date.
    repeat split; try assumption; [apply in_window_iff, Hw |].
    symmetry. apply snapshot_key_strftime; assumption. }
  destruct (Forall2_In_l _ _ _ _ F Hin) as (f & Hf & path & G & I).
  exists path, f. repeat split; try assumption.
  intros row Hrow. apply in_concat. exists f. split; assumption.
Qed.

Lemma returned_frame_holds_window_files_witness :
  exists path f,
    getitem ordered_catalog "2024030306" = Ok path /\
    ingest_ok path = Ok f /\
    incl f ["B.dfs0"; "G.dfs0"; "F.dfs0"].
Proof.
  apply (returned_frame_holds_window_files string pipeline
           (world march_1 ordered_catalog ingest_ok) ordered_catalog
           ["B.dfs0"; "G.dfs0"; "F.dfs0"] eq_refl eq_refl
           "2024030306" (mkdatetime 2024 3 3 6 0 0 0)).
  - right. right. left. reflexivity.
  - reflexivity.
  - reflexivity.
  - vm_compute. split; [reflexivity | discriminate].
Defined.

(** X4. No file outside the window is opened: two engines that agree on
    the files of the selected keys give the same outcome, whatever they do
    on the other files of the catalog. *)
Theorem files_outside_window_unused (Row : Type) (self : dfs0_pipeline)
    (w1 w2 : World Row) (forecast_dict : dict string)
    (selected : list string) :
  get_seven_day_forcast_files w1 (root_dir self) (client_name self)
  = Ok forecast_dict ->
  get_seven_day_forcast_files w2 (root_dir self) (client_name self)
  = Ok forecast_dict ->
  today w1 = today w2 ->
  forecast_date_lst forecast_dict (today w1) = Ok selected ->
  (forall k path, In k selected -> getitem forecast_dict k = Ok path ->
     dfs0_ingestion_engine w1 path = dfs0_ingestion_engine w2 path) ->
  build_seven_day_forecast_data self w1 = build_seven_day_forecast_data self w2.
Proof.
  intros C1 C2 Ht S Hi.
  rewrite (build_unfold Row self w1 forecast_dict C1),
          (build_unfold Row self w2 forecast_dict C2), <- Ht, S.
  simpl.
  replace (forecast_df_lst w2 forecast_dict selected)
    with (forecast_df_lst w1 forecast_dict selected); [reflexivity |].
  unfold forecast_df_lst. apply comprehension_ext. intros k Hk.
  destruct (getitem forecast_dict k) as [path | e] eqn:G; simpl;
    [apply (Hi k path Hk G) | reflexivity].
Qed.

Lemma files_outside_window_unused_witness :
  build_seven_day_forecast_data pipeline
    (world march_1 scenario_catalog ingest_ok)
  = build_seven_day_forecast_data pipeline
      (world march_1 scenario_catalog (ingest_fail_on "C.dfs0")).
Proof.
  apply (files_outside_window_unused string pipeline
           (world march_1 scenario_catalog ingest_ok)
           (world march_1 scenario_catalog (ingest_fail_on "C.dfs0"))
           scenario_catalog ["2024030206"]); try reflexivity.
  intros k path [<- | []] G. vm_compute in G. injection G as <-. reflexivity.
Defined.

(** X5. A selected key that is not a key of the catalog ends the call with
    [KeyError]: this is what happens to a catalog key that [strptime]
    accepts in a form [strftime] does not write back. The call never
    returns then, and the exception is [KeyError] of the rewritten key when
    the keys before it were ingested. *)
Theorem rewritten_key_raises_KeyError (Row : Type) (self : dfs0_pipeline)
    (w : World Row) (forecast_dict : dict string) (selected : list string) :
  get_seven_day_forcast_files w (root_dir self) (client_name self)
  = Ok forecast_dict ->
  forecast_date_lst forecast_dict (today w) = Ok selected ->
  (forall k, In k selected -> ~ In k (keys forecast_dict) ->
     exists e, build_seven_day_forecast_data self w = Raise e) /\
  (forall pre k post, selected = pre ++ k :: post ->
     (forall k', In k' pre -> exists p df,
        getitem forecast_dict k' = Ok p /\ dfs0_ingestion_engine w p = Ok df) ->
     ~ In k (keys forecast_dict) ->
     build_seven_day_forecast_data self w = Raise (KeyError k)).
Proof.
  intros C S. split.
  - intros k Hk Hn.
    destruct (forecast_df_lst w forecast_dict selected) as [dfs | e] eqn:E.
    + apply forecast_df_lst_ok in E.
      destruct (Forall2_In_l _ _ _ _ E Hk) as (f & _ & path & G & _).
      rewrite (getitem_notin _ _ Hn) in G. discriminate.
    + exists e. exact (build_ingest_raises Row self w forecast_dict C _ e S E).
  - intros pre k post -> Hpre Hn.
    apply (build_ingest_raises Row self w forecast_dict C _ _ S).
    unfold forecast_df_lst. apply comprehension_first_raise.
    + intros k' Hk'. destruct (Hpre k' Hk') as (p & df & -> & Hdf).
      exists df. exact Hdf.
    + rewrite (getitem_notin _ _ Hn). reflexivity.
Qed.

Lemma rewritten_key_raises_KeyError_witness :
  build_seven_day_forecast_data pipeline
    (world march_1 short_key_catalog ingest_ok)
  = Raise (KeyError "2024030206").
Proof.
  refine (proj2 (rewritten_key_raises_KeyError string pipeline
            (world march_1 short_key_catalog ingest_ok) short_key_catalog
            ["2024030206"] eq_refl eq_refl)
          [] "2024030206" [] eq_refl _ _).
  - intros k' [].
  - simpl. intros [H | []]. discriminate.
Defined.

Lemma strftime_SnapshotKey (t : datetime) :
  parsed t -> SnapshotKey (strftime t) = true.
Proof.
  intros [Hy Hm Hd Hh _ _ _].
  pose proof (days_in_month_le_31 (year t) (month t)) as H31.
  unfold SnapshotKey, strftime, pad4, pad2. simpl.
  rewrite !digit_ascii_of_digit by (Z.div_mod_to_equations; lia).
  reflexivity.
Qed.

(** X6. For a run dated in the year 1000 or later, where every platform
    writes the year with four digits: the key written at line 98 for a
    date parsed at line 83 is a key of ten digits that parses to the same
    instant, and it is the parsed key itself when that has ten digits. *)
Theorem key_round_trip (key : string) (date : datetime) :
  strptime key = Ok date ->
  1000 <= year date ->
  strptime (strftime date) = Ok date /\
  SnapshotKey (strftime date) = true /\
  (SnapshotKey key = true -> strftime date = key).
Proof.
  intros H _. pose proof (strptime_parsed key date H) as P.
  split; [apply strptime_strftime, P |].
  split; [apply strftime_SnapshotKey, P |].
  intro S. apply snapshot_key_strftime; assumption.
Qed.

Lemma key_round_trip_witness :
  strptime (strftime (mkdatetime 2024 3 2 6 0 0 0))
  = Ok (mkdatetime 2024 3 2 6 0 0 0) /\
  SnapshotKey (strftime (mkdatetime 2024 3 2 6 0 0 0)) = true /\
  strftime (mkdatetime 2024 3 2 6 0 0 0) = "2024030206".
Proof.
  destruct (key_round_trip "2024030206" (mkdatetime 2024 3 2 6 0 0 0)
              eq_refl ltac:(simpl; discriminate)) as (H1 & H2 & H3).
  split; [exact H1 |]. split; [exact H2 | exact (H3 eq_refl)].
Defined.

Lemma NoDup_map_filter {A B : Type} (g : A -> B) (f : A -> bool)
    (l : list A) :
  NoDup (map g l) -> NoDup (map g (filter f l)).
Proof.
  induction l as [| x t IH]; simpl; intro N; [constructor |].
  inversion N as [| ? ? Hn Nt]; subst.
  destruct (f x); simpl; [| apply IH, Nt].
  constructor; [| apply IH, Nt].
  intro Hin. apply Hn. apply in_map_iff in Hin.
  destruct Hin as (y & E & Hy). apply filter_In in Hy.
  apply in_map_iff. exists y. tauto.
Qed.

Lemma snapshot_keys_written_back (ks : list string) (dl : list datetime) :
  Forall (fun key => SnapshotKey key = true) ks ->
  Forall2 (fun key date => strptime key = Ok date) ks dl ->
  map strftime dl = ks.
Proof.
  intros S F. induction F as [| k d t t' Hk Ht IH]; simpl; [reflexivity |].
  inversion S; subst. rewrite IH by assumption.
  rewrite (snapshot_key_strftime k d) by assumption. reflexivity.
Qed.

Lemma getitem_In_pair {V : Type} (d : dict V) (k : string) (v : V) :
  getitem d k = Ok v -> In (k, v) d.
Proof.
  induction d as [| [k' v'] t IH]; simpl; [discriminate |].
  destruct (String.eqb_spec k' k) as [-> | N].
  - intro H. injection H as <-. left. reflexivity.
  - intro H. right. apply IH, H.
Qed.

Lemma getitem_present {V : Type} (d : dict V) (k : string) :
  In k (keys d) -> exists v, getitem d k = Ok v.
Proof.
  induction d as [| [k' v'] t IH]; simpl; [intros [] |].
  destruct (String.eqb_spec k' k) as [-> | N].
  - intros _. exists v'. reflexivity.
  - intros [E | H]; [contradiction | apply IH, H].
Qed.

Lemma distinct_values_key {V : Type} (d : dict V) (k1 k2 : string) (v : V) :
  NoDup (map snd d) -> In (k1, v) d -> In (k2, v) d -> k1 = k2.
Proof.
  induction d as [| [k v'] t IH]; simpl; intros N H1 H2; [destruct H1 |].
  inversion N as [| ? ? Hn Nt]; subst.
  destruct H1 as [E1 | H1], H2 as [E2 | H2].
  - congruence.
  - injection E1 as -> ->. exfalso. apply Hn.
    apply (in_map snd) in H2. exact H2.
  - injection E2 as -> ->. exfalso. apply Hn.
    apply (in_map snd) in H1. exact H1.
  - apply IH; assumption.
Qed.

(** X7. With a catalog of distinct ten-digit keys the selected keys are
    distinct keys of the catalog, so that every lookup of line 106 finds
    its path; and when the paths of the catalog are distinct too, the
    paths handed to the ingestion engine are distinct: no file is ingested
    twice. *)
Theorem selection_has_no_duplicates (forecast_dict : dict string)
    (current_date : datetime) (selected : list string) :
  Forall (fun key => SnapshotKey key = true) (keys forecast_dict) ->
  NoDup (keys forecast_dict) ->
  forecast_date_lst forecast_dict current_date = Ok selected ->
  NoDup selected /\ incl selected (keys forecast_dict) /\
  exists paths,
    Forall2 (fun k path => getitem forecast_dict k = Ok path) selected paths /\
    (NoDup (map snd forecast_dict) -> NoDup paths).
Proof.
  intros S N H. apply forecast_date_lst_inv in H. destruct H as (dl & Hd & ->).
  unfold date_lst in Hd. apply comprehension_ok in Hd.
  pose proof (snapshot_keys_written_back _ _ S Hd) as E.
  assert (Permutation
            (map strftime
               (sort (filter (fun date => in_window date current_date) dl)))
            (map strftime
               (filter (fun date => in_window date current_date) dl))) as P
    by apply Permutation_map, sort_perm.
  set (selected :=
         map strftime
           (sort (filter (fun date => in_window date current_date) dl))) in *.
  assert (NoDup selected) as Nsel.
  { apply (Permutation_NoDup (Permutation_sym P)).
    apply NoDup_map_filter. rewrite E. exact N. }
  assert (incl selected (keys forecast_dict)) as Isel.
  { intros k Hk. apply (Permutation_in _ P) in Hk.
    apply in_map_iff in Hk. destruct Hk as (d & <- & Hd').
    apply filter_In in Hd'. rewrite <- E. apply in_map, Hd'. }
  split; [exact Nsel |]. split; [exact Isel |].
  clearbody selected. clear P.
  induction selected as [| k t IH].
  - exists []. split; constructor.
  - inversion Nsel as [| ? ? Hn Nt]; subst.
    destruct IH as (paths & F & Np);
      [exact Nt | intros x Hx; apply Isel; right; exact Hx |].
    destruct (getitem_present forecast_dict k (Isel k (or_introl eq_refl)))
      as [path G].
    exists (path :: paths). split; [constructor; assumption |].
    intro Nv. constructor; [| apply Np, Nv].
    intro Hin. destruct (Forall2_In_r _ _ _ _ F Hin) as (k' & Hk' & G').
    apply getitem_In_pair in G, G'.
    assert (k = k') as -> by (eapply distinct_values_key; eassumption).
    exact (Hn Hk').
Qed.

Lemma selection_has_no_duplicates_witness :
  NoDup ["2024030206"; "2024030306"; "2024030506"] /\
  incl ["2024030206"; "2024030306"; "2024030506"] (keys shuffled_catalog) /\
  exists paths,
    Forall2 (fun k path => getitem shuffled_catalog k = Ok path)
      ["2024030206"; "2024030306"; "2024030506"] paths /\
    (NoDup (map snd shuffled_catalog) -> NoDup paths).
Proof.
  apply (selection_has_no_duplicates shuffled_catalog march_1).
  - repeat constructor.
  - simpl. repeat constructor; simpl; intuition discriminate.
  - reflexivity.
Defined.

(** * Properties of the water column table and of the constructors *)

Section WaterColumn.

Import Dashboard Plots.

Variable Cell : Type.
Variable Float : Type.
Variable lit : string -> Float.
Variable extract_data : string -> Z -> result (Frame Cell).
Variable mean : Series Cell -> Float.
Variable round2 : Float -> Float.

Local Notation "'step'" := (table_step Cell Float extract_data mean round2).
Local Notation "'loop'" := (table_loop Cell Float extract_data mean round2).

Lemma table_step_inv (table_df rows : list (table_row Float))
    (item : Float * Z) :
  step table_df item = Ok rows ->
  exists row, Depth Float row = fst item /\ rows = rev (table_df ++ [row]) /\
    forall table_df', step table_df' item = Ok (rev (table_df' ++ [row])).
Proof.
  destruct item as [depth index]. unfold table_step.
  destruct (column_mean Cell Float extract_data mean "Current speed" index)
    as [a |]; [| discriminate].
  destruct (column_mean Cell Float extract_data mean "Salinity" index)
    as [b |]; [| discriminate].
  destruct (column_mean Cell Float extract_data mean "Temperature" index)
    as [c |]; [| discriminate].
  destruct (column_mean Cell Float extract_data mean "Density" index)
    as [d |]; [| discriminate].
  cbn [bind]. intro H. injection H as <-.
  eexists. split; [| split; [reflexivity | intro; reflexivity]]. reflexivity.
Qed.

Lemma table_loop_app (xs ys : list (Float * Z))
    (table_df : list (table_row Float)) :
  loop (xs ++ ys) table_df
  = (table_df' <- loop xs table_df ;; loop ys table_df').
Proof.
  revert table_df. induction xs as [| x t IH]; intro table_df; simpl;
    [reflexivity |].
  destruct (step table_df x) as [df |]; simpl; [apply IH | reflexivity].
Qed.

Lemma table_loop_depths (items : list (Float * Z))
    (table_df rows : list (table_row Float)) :
  loop items table_df = Ok rows ->
  map (Depth Float) rows
  = fold_left (fun acc depth => rev (acc ++ [depth])) (map fst items)
      (map (Depth Float) table_df).
Proof.
  revert table_df. induction items as [| item t IH]; intro table_df; simpl.
  - intro H. injection H as <-. reflexivity.
  - destruct (step table_df item) as [df |] eqn:E; simpl; [| discriminate].
    intro H. apply IH in H. rewrite H.
    apply table_step_inv in E. destruct E as (row & D & -> & _).
    rewrite map_rev, map_app. simpl. rewrite D. reflexivity.
Qed.

Lemma table_loop_last_two (items : list (Float * Z)) (x y : Float * Z)
    (rows : list (table_row Float)) :
  loop (items ++ [x; y]) [] = Ok rows ->
  exists rows' rx ry,
    loop items [] = Ok rows' /\
    Depth Float rx = fst x /\ Depth Float ry = fst y /\
    rows = ry :: rows' ++ [rx].
Proof.
  rewrite table_loop_app.
  destruct (loop items []) as [rows' |]; cbn [bind]; [| discriminate].
  simpl.
  destruct (step rows' x) as [r1 |] eqn:E1; cbn [bind]; [| discriminate].
  destruct (step r1 y) as [r2 |] eqn:E2; cbn [bind]; [| discriminate].
  intro H. injection H as <-.
  apply table_step_inv in E1, E2.
  destruct E1 as (rx & Dx & -> & _). destruct E2 as (ry & Dy & -> & _).
  exists rows', rx, ry. repeat split; try assumption.
  rewrite rev_app_distr. simpl. rewrite rev_involutive. reflexivity.
Qed.

Lemma table_loop_perm (items : list (Float * Z))
    (table_df rows : list (table_row Float)) :
  loop items table_df = Ok rows ->
  Permutation (map (Depth Float) rows)
    (map (Depth Float) table_df ++ map fst items).
Proof.
  revert table_df. induction items as [| item t IH]; intro table_df; simpl.
  - intro H. injection H as <-. rewrite app_nil_r. apply Permutation_refl.
  - destruct (step table_df item) as [df |] eqn:E; simpl; [| discriminate].
    intro H. apply IH in H. eapply perm_trans; [exact H |].
    apply table_step_inv in E. destruct E as (row & D & -> & _).
    rewrite map_rev, map_app. simpl. rewrite D.
    change (fst item :: map fst t) with ([fst item] ++ map fst t).
    rewrite app_assoc. apply Permutation_app_tail.
    apply Permutation_sym, Permutation_rev.
Qed.

(** X12. The loop of [plot_water_column_table] reverses the table after
    every row it appends. So the row of the last depth comes first, the
    row of the depth before it comes last, and between them stands the
    table of the depths before these two. *)
Theorem table_loop_zigzag (items : list (Float * Z)) (x y : Float * Z)
    (rows : list (table_row Float)) :
  loop (items ++ [x; y]) [] = Ok rows ->
  exists rows' rx ry,
    loop items [] = Ok rows' /\
    Depth Float rx = fst x /\ Depth Float ry = fst y /\
    rows = ry :: rows' ++ [rx].
Proof.
  rewrite table_loop_app.
  destruct (loop items []) as [rows' |]; cbn [bind]; [| discriminate].
  simpl.
  destruct (step rows' x) as [r1 |] eqn:E1; cbn [bind]; [| discriminate].
  destruct (step r1 y) as [r2 |] eqn:E2; cbn [bind]; [| discriminate].
  intro H. injection H as <-.
  apply table_step_inv in E1, E2.
  destruct E1 as (rx & Dx & -> & _). destruct E2 as (ry & Dy & -> & _).
  exists rows', rx, ry. repeat split; try assumption.
  rewrite rev_app_distr. simpl. rewrite rev_involutive. reflexivity.
Qed.

(** X13. The table holds one row for each depth, and with three or more
    distinct depths its rows are not in the reverse of the order of the
    depths: reversing inside the loop does not give the inverted table the
    comment of line 297 speaks of. *)
Theorem table_loop_not_reversed (items : list (Float * Z))
    (rows : list (table_row Float)) :
  loop items [] = Ok rows ->
  NoDup (map fst items) ->
  (3 <= List.length items)%nat ->
  Permutation (map (Depth Float) rows) (map fst items) /\
  map (Depth Float) rows <> rev (map fst items).
Proof.
  intros H N L. split; [apply (table_loop_perm _ _ _ H) |].
  destruct (rev items) as [| y [| x r]] eqn:R;
    try (apply (f_equal (@List.length _)) in R; rewrite length_rev in R;
         simpl in R; lia).
  assert (items = rev r ++ [x; y]) as ->.
  { rewrite <- (rev_involutive items), R. simpl.
    rewrite <- app_assoc. reflexivity. }
  destruct (rev r) as [| z t] eqn:Rr.
  { rewrite length_app in L. simpl in L. lia. }
  apply table_loop_last_two in H.
  destruct H as (rows' & rx & ry & _ & Dx & Dy & ->).
  simpl. rewrite !map_app. simpl. rewrite Dx, Dy.
  rewrite rev_app_distr. simpl. intro E. injection E as E.
  apply (f_equal (@rev _)) in E. rewrite rev_app_distr in E. simpl in E.
  rewrite rev_app_distr, rev_involutive in E. simpl in E.
  injection E as E _.
  simpl in N. rewrite map_app in N. simpl in N.
  inversion N as [| ? ? Hn _]; subst. apply Hn.
  rewrite E. apply in_or_app. right. left. reflexivity.
Qed.

(** X14. Whatever longitude and latitude are passed, the table that
    [plot_water_column_table] returns has the five headers of line 266 and
    lists the eleven depths of the development table in this order: 0.01,
    then every second depth going down to -12.39876, then the others
    coming back up to -0.7340443. *)
Theorem water_column_table_depths (long lat : Float) (table : Table Float) :
  plot_water_column_table Cell Float lit extract_data mean round2 long lat
  = Ok table ->
  header Float table
  = ["Depth"; "Avg Current Speed (m/s)"; "Avg Water Salinity (PSU)";
     "Avg Water Temperature (Degrees Celsius)"; "Avg Water Density (kg/m^3)"]
  /\
  hd_error (cells Float table)
  = Some [lit "0.01"; lit "-1.50297"; lit "-3.221019"; lit "-5.382481";
          lit "-8.297584"; lit "-12.39876"; lit "-10.16637";
          lit "-6.722366"; lit "-4.229135"; lit "-2.322656";
          lit "-0.7340443"].
Proof.
  unfold plot_water_column_table.
  destruct (loop (column_data Float lit) []) as [rows |] eqn:E;
    cbn [bind]; [| discriminate].
  intro H. injection H as <-. split; [reflexivity |].
  apply table_loop_depths in E. simpl. rewrite E. reflexivity.
Qed.

End WaterColumn.

(** X15. No [dashboard] can be constructed: its constructor calls
    [gis_model] with one argument where three are required, so it raises
    [TypeError] whenever the ingestion engine has initialised, and the
    engine's exception otherwise. *)
Theorem dashboard_init_never_returns (Value Engine : Type)
    (dfsu_ingestion_engine_init : Value -> result Engine)
    (path gis_filepath : Value) :
  (forall d,
     Plots.dashboard_init Value Engine dfsu_ingestion_engine_init path
       gis_filepath <> Ok d) /\
  (forall e, dfsu_ingestion_engine_init path = Ok e ->
     Plots.dashboard_init Value Engine dfsu_ingestion_engine_init path
       gis_filepath = Raise Plots.TypeError) /\
  (forall e, dfsu_ingestion_engine_init path = Raise e ->
     Plots.dashboard_init Value Engine dfsu_ingestion_engine_init path
       gis_filepath = Raise e).
Proof.
  unfold Plots.dashboard_init.
  destruct (dfsu_ingestion_engine_init path) as [e0 | e0]; simpl;
    repeat split; try discriminate; try reflexivity.
  intros e H. injection H as <-. reflexivity.
Qed.

Lemma table_loop_zigzag_witness :
  exists rows' rx ry,
    Plots.table_loop Z Z demo_extract_data demo_mean demo_round2 [(1, 10)] []
    = Ok rows' /\
    Plots.Depth Z rx = 2 /\ Plots.Depth Z ry = 3 /\
    [Plots.mkrow Z 3 30 30 30 30; Plots.mkrow Z 1 10 10 10 10;
     Plots.mkrow Z 2 20 20 20 20] = ry :: rows' ++ [rx].
Proof.
  exact (table_loop_zigzag Z Z demo_extract_data demo_mean demo_round2
           [(1, 10)] (2, 20) (3, 30) _ eq_refl).
Defined.

Lemma table_loop_not_reversed_witness :
  Permutation [3; 1; 2] [1; 2; 3] /\ [3; 1; 2] <> [3; 2; 1].
Proof.
  apply (table_loop_not_reversed Z Z demo_extract_data demo_mean demo_round2
           [(1, 10); (2, 20); (3, 30)]
           [Plots.mkrow Z 3 30 30 30 30; Plots.mkrow Z 1 10 10 10 10;
            Plots.mkrow Z 2 20 20 20 20]).
  - reflexivity.
  - simpl. repeat constructor; simpl; intuition discriminate.
  - simpl. apply le_n.
Defined.

Lemma water_column_table_depths_witness :
  ["Depth"; "Avg Current Speed (m/s)"; "Avg Water Salinity (PSU)";
   "Avg Water Temperature (Degrees Celsius)"; "Avg Water Density (kg/m^3)"]
  = ["Depth"; "Avg Current Speed (m/s)"; "Avg Water Salinity (PSU)";
     "Avg Water Temperature (Degrees Celsius)"; "Avg Water Density (kg/m^3)"]
  /\
  Some ["0.01"; "-1.50297"; "-3.221019"; "-5.382481"; "-8.297584";
        "-12.39876"; "-10.16637"; "-6.722366"; "-4.229135"; "-2.322656";
        "-0.7340443"]
  = Some [demo_lit "0.01"; demo_lit "-1.50297"; demo_lit "-3.221019";
          demo_lit "-5.382481"; demo_lit "-8.297584"; demo_lit "-12.39876";
          demo_lit "-10.16637"; demo_lit "-6.722366"; demo_lit "-4.229135";
          demo_lit "-2.322656"; demo_lit "-0.7340443"].
Proof.
  exact (water_column_table_depths Z string demo_lit demo_extract_data
           demo_text_mean demo_text_round2 "-60.306" "10.008"
           (Plots.table_of string
              (map (fun d => Plots.mkrow string d "0.0" "0.0" "0.0" "0.0")
                 ["0.01"; "-1.50297"; "-3.221019"; "-5.382481"; "-8.297584";
                  "-12.39876"; "-10.16637"; "-6.722366"; "-4.229135";
                  "-2.322656"; "-0.7340443"]))
           eq_refl).
Defined.
